(** * youtube_summarizer.py: a shallow embedding and its verified properties

    The program fetches the transcript of a video from a search service,
    joins the transcript segments into one text, asks a chat model for a
    summary and prints it.  The embedding follows [src/youtube_summarizer.py]
    function by function:

    - Python values that [response.json()] can produce are the type [pyval];
      the dynamic checks of the interpreter ([x[k]], [k in x], [for], [+],
      truthiness) are written out, with [TypeError] and [KeyError] where
      CPython raises them;
    - exceptions are values of an error monad ([result]); code that prints,
      prompts or calls the network runs in a state-and-error monad [IO] over
      the lines still to be read from standard input and the trace of events
      performed so far;
    - the outside world (parsed command line, environment, the two remote
      services) is a record [world] of plain functions. *)

From Stdlib Require Import ZArith NArith List Ascii String Floats.SpecFloat DecimalString Lia.
From stdpp Require Import base option list gmap.

Local Open Scope Z_scope.

(** ** Strings *)

(** A Python [str] is a sequence of Unicode code points, a [list N].  An
    ASCII literal of the source as such a sequence: *)
Definition lit (s : string) : list N :=
  List.map N_of_ascii (list_ascii_of_string s).
Arguments lit s%_string : simpl never.

(** Line feed and the double quote, for the literals that contain them. *)
Definition LF : N := 10%N.
Definition DQUOTE : N := 34%N.

(** [str.isspace] on one code point (CPython's [_PyUnicode_IsWhitespace]). *)
Definition isspace (c : N) : bool :=
  ((9 <=? c) && (c <=? 13) || (28 <=? c) && (c <=? 32)
   || (c =? 133) || (c =? 160) || (c =? 5760)
   || (8192 <=? c) && (c <=? 8202)
   || (c =? 8232) || (c =? 8233) || (c =? 8239) || (c =? 8287)
   || (c =? 12288))%N.

Fixpoint lstrip (s : list N) : list N :=
  match s with
  | c :: s' => if isspace c then lstrip s' else s
  | [] => []
  end.

Definition rstrip (s : list N) : list N := rev (lstrip (rev s)).

(** [s.strip()] *)
Definition strip (s : list N) : list N := rstrip (lstrip s).

Fixpoint startswith (p s : list N) : bool :=
  match p, s with
  | [], _ => true
  | a :: p', b :: s' => (a =? b)%N && startswith p' s'
  | _ :: _, [] => false
  end.

(** [p in s] for two strings: [p] occurs in [s] as a substring. *)
Fixpoint str_contains (p s : list N) : bool :=
  startswith p s || match s with
                    | [] => false
                    | _ :: s' => str_contains p s'
                    end.

(** [str(n)] for an [int]. *)
Definition str_of_int (z : Z) : list N := lit (NilZero.string_of_int (Z.to_int z)).

(** [repr(s)] for a string without quotes or escapes, as in [KeyError('text')]. *)
Definition repr_plain (s : list N) : list N := lit "'" ++ s ++ lit "'".

(** ** Exceptions *)

(** The exception classes that the program can meet: builtins, those of
    [requests.exceptions] and those of [openai]. *)
Inductive exc_class :=
| BaseException | Exception | KeyboardInterrupt | SystemExit
| TypeError | ValueError | LookupError | KeyError | IndexError | EOFError | OSError
| RequestException | HTTPError | ConnectionError | Timeout | ConnectTimeout
| ReadTimeout | SSLError | ProxyError | TooManyRedirects | InvalidJSONError
| JSONDecodeError
| OpenAIError | APIError | APIConnectionError | APITimeoutError | APIStatusError
| AuthenticationError | RateLimitError.

#[global] Instance exc_class_eq_dec : EqDecision exc_class.
Proof. solve_decision. Defined.

(** The direct base classes, as the libraries declare them. *)
Definition bases (c : exc_class) : list exc_class :=
  match c with
  | BaseException => []
  | Exception | KeyboardInterrupt | SystemExit => [BaseException]
  | TypeError | ValueError | LookupError | EOFError | OSError => [Exception]
  | KeyError | IndexError => [LookupError]
  | RequestException => [OSError]
  | HTTPError | ConnectionError | Timeout | TooManyRedirects | InvalidJSONError =>
      [RequestException]
  | ConnectTimeout => [ConnectionError; Timeout]
  | ReadTimeout => [Timeout]
  | SSLError | ProxyError => [ConnectionError]
  | JSONDecodeError => [InvalidJSONError; ValueError]
  | OpenAIError => [Exception]
  | APIError => [OpenAIError]
  | APIConnectionError | APIStatusError => [APIError]
  | APITimeoutError => [APIConnectionError]
  | AuthenticationError | RateLimitError => [APIStatusError]
  end.

Fixpoint issubclass_upto (depth : nat) (c d : exc_class) : bool :=
  bool_decide (c = d)
  || match depth with
     | O => false
     | S n => existsb (fun b => issubclass_upto n b d) (bases c)
     end.

(** [issubclass(c, d)]; no chain of bases is longer than eight. *)
Definition issubclass (c d : exc_class) : bool := issubclass_upto 8 c d.

(** An exception object: its class and [str(e)]. *)
Record exc := Exc { exc_cls : exc_class; exc_msg : list N }.

(** [isinstance(e, c)] *)
Definition isinstance (e : exc) (c : exc_class) : bool := issubclass (exc_cls e) c.

(** ** The error monad *)

Inductive result (A : Type) :=
| Ok (a : A)
| Raise (e : exc).
Arguments Ok {A} a.
Arguments Raise {A} e.

#[global] Instance result_ret : MRet result := fun A a => Ok a.
#[global] Instance result_bind : MBind result := fun A B k r =>
  match r with
  | Ok a => k a
  | Raise e => Raise e
  end.

(** ** Python values *)

(** What [json.loads] returns: [None], [bool], [int], [float], [str], [list]
    and [dict] with string keys. *)
#[warnings="-register-all"]
Inductive pyval :=
| PyNone
| PyBool (b : bool)
| PyInt (z : Z)
| PyFloat (f : spec_float)
| PyStr (s : list N)
| PyList (l : list pyval)
| PyDict (d : gmap (list N) pyval).

(** [type(v).__name__] *)
Definition type_name (v : pyval) : list N :=
  match v with
  | PyNone => lit "NoneType"
  | PyBool _ => lit "bool"
  | PyInt _ => lit "int"
  | PyFloat _ => lit "float"
  | PyStr _ => lit "str"
  | PyList _ => lit "list"
  | PyDict _ => lit "dict"
  end.

(** [bool(v)]: [None], [False], zero, and the empty string, list and dict
    are false; a NaN is true. *)
Definition truthy (v : pyval) : bool :=
  match v with
  | PyNone => false
  | PyBool b => b
  | PyInt z => negb (z =? 0)
  | PyFloat f => match f with S754_zero _ => false | _ => true end
  | PyStr s => match s with [] => false | _ => true end
  | PyList l => match l with [] => false | _ => true end
  | PyDict d => negb (bool_decide (d = ∅))
  end.

(** The messages of the [TypeError]s are those of CPython 3.12. *)
Definition type_error (msg : list N) : exc := Exc TypeError msg.

(** [key in v] for a string [key]. *)
Definition py_in (key : list N) (v : pyval) : result bool :=
  match v with
  | PyDict d => Ok (bool_decide (is_Some (d !! key)))
  | PyList l =>
      Ok (existsb (fun x => match x with
                            | PyStr s => bool_decide (s = key)
                            | _ => false
                            end) l)
  | PyStr s => Ok (str_contains key s)
  | _ => Raise (type_error (lit "argument of type '" ++ type_name v
                            ++ lit "' is not iterable"))
  end.

(** [v[key]] for a string [key]. *)
Definition getitem (v : pyval) (key : list N) : result pyval :=
  match v with
  | PyDict d =>
      match d !! key with
      | Some x => Ok x
      | None => Raise (Exc KeyError (repr_plain key))
      end
  | PyList _ =>
      Raise (type_error (lit "list indices must be integers or slices, not str"))
  | PyStr _ =>
      Raise (type_error (lit "string indices must be integers, not 'str'"))
  | _ => Raise (type_error (lit "'" ++ type_name v
                            ++ lit "' object is not subscriptable"))
  end.

(** The items that [for x in v] visits: the elements of a list, the keys of
    a dict, the characters of a string. *)
Definition py_iter (v : pyval) : result (list pyval) :=
  match v with
  | PyList l => Ok l
  | PyDict d => Ok (List.map (fun kv => PyStr (fst kv)) (map_to_list d))
  | PyStr s => Ok (List.map (fun c => PyStr [c]) s)
  | _ => Raise (type_error (lit "'" ++ type_name v
                            ++ lit "' object is not iterable"))
  end.

(** [v + s] for a string [s]: concatenation when [v] is a string. *)
Definition add_str (v : pyval) (s : list N) : result (list N) :=
  match v with
  | PyStr t => Ok (t ++ s)
  | PyList _ =>
      Raise (type_error (lit "can only concatenate list (not " ++ [DQUOTE]
                         ++ lit "str" ++ [DQUOTE] ++ lit ") to list"))
  | _ => Raise (type_error (lit "unsupported operand type(s) for +: '"
                            ++ type_name v ++ lit "' and 'str'"))
  end.

(** ** process_transcript (lines 26-37) *)

Definition NO_TRANSCRIPT : list N := lit "No transcript available.".

(** The body of the [for] loop, run over the items still to visit:
    [full_transcript += segment['text'] + " "]. *)
Fixpoint join_segments (segments : list pyval) (full_transcript : list N)
  : result (list N) :=
  match segments with
  | [] => Ok full_transcript
  | segment :: rest =>
      text ← getitem segment (lit "text");
      piece ← add_str text (lit " ");
      join_segments rest (full_transcript ++ piece)
  end.

Definition process_transcript (transcript_data : pyval) : result (list N) :=
  (* if not transcript_data or 'transcripts' not in transcript_data: *)
  missing ← (if negb (truthy transcript_data) then Ok true
             else present ← py_in (lit "transcripts") transcript_data;
                  Ok (negb present));
  if (missing : bool) then Ok NO_TRANSCRIPT
  else
    segments_obj ← getitem transcript_data (lit "transcripts");
    segments ← py_iter segments_obj;
    full_transcript ← join_segments segments [];
    Ok (strip full_transcript).

(** ** The world and the monad of effects *)

(** [args = parser.parse_args()]: the three optional string flags. *)
Record namespace := Namespace {
  ns_video_id : option (list N);
  ns_searchapi_key : option (list N);
  ns_openai_key : option (list N)
}.

(** A [requests.Response], as far as the program looks at it: the status
    line, the final URL, and what [response.json()] does. *)
Record response := Response {
  status_code : Z;
  reason : list N;
  url : list N;
  json : result pyval
}.

(** One entry of [messages=[...]]. *)
Record chat_message := ChatMessage { role : list N; content : list N }.

(** The keyword arguments of [client.chat.completions.create]. *)
Record chat_request := ChatRequest {
  model : list N;
  messages : list chat_message;
  max_tokens : Z
}.

(** A chat completion: [choices[i].message.content] for each choice, which
    the client types as an optional string. *)
Record chat_completion := ChatCompletion { choices : list (option (list N)) }.

(** What lies outside the program.  The model starts after a successful
    [parse_args()]. *)
Record world := World {
  args : namespace;
  environ : gmap (list N) (list N);
  (* requests.get(url, params=params) *)
  http_get : list N -> list (list N * list N) -> result response;
  (* OpenAI(api_key=key): the client is made, or the constructor raises *)
  new_client : list N -> result unit;
  (* client.chat.completions.create(model=.., messages=.., max_tokens=..), on
     the client made with the key *)
  chat_create : list N -> chat_request -> result chat_completion
}.

(** What the program does to the outside, in the order it does it. *)
Inductive event :=
| EvPrint (line : list N)
| EvPrompt (prompt : list N)
| EvGet (url : list N) (params : list (list N * list N))
| EvChat (api_key : list N) (request : chat_request).

Record state := State {
  stdin : list (list N);
  trace : list event
}.

Definition IO (A : Type) : Type := state -> result A * state.

#[global] Instance IO_ret : MRet IO := fun A a st => (Ok a, st).
#[global] Instance IO_bind : MBind IO := fun A B k m st =>
  match m st with
  | (Ok a, st') => k a st'
  | (Raise e, st') => (Raise e, st')
  end.

(** A computation without effects, run inside [IO]. *)
Definition lift {A} (r : result A) : IO A := fun st => (r, st).

Definition emit (ev : event) (st : state) : state :=
  {| stdin := stdin st; trace := trace st ++ [ev] |}.

(** [print(line)] *)
Definition print (line : list N) : IO unit :=
  fun st => (Ok tt, emit (EvPrint line) st).

(** [input(prompt)]: writes the prompt, then reads a line; [EOFError] at the
    end of the input. *)
Definition input (prompt : list N) : IO (list N) :=
  fun st =>
    match stdin st with
    | line :: rest =>
        (Ok line, {| stdin := rest; trace := trace st ++ [EvPrompt prompt] |})
    | [] => (Raise (Exc EOFError (lit "EOF when reading a line")),
             emit (EvPrompt prompt) st)
    end.

(** [try: body except cls as e: handler] *)
Definition try_except {A} (body : IO A) (cls : exc_class) (handler : exc -> IO A)
  : IO A :=
  fun st =>
    match body st with
    | (Raise e, st') =>
        if isinstance e cls then handler e st' else (Raise e, st')
    | (Ok a, st') => (Ok a, st')
    end.

(** ** The calls into [requests] *)

Definition requests_get (w : world) (url : list N)
    (params : list (list N * list N)) : IO response :=
  fun st => (http_get w url params, emit (EvGet url params) st).

(** [response.raise_for_status()]: an [HTTPError] for a status from 400 to
    599, nothing otherwise. *)
Definition raise_for_status (r : response) : result unit :=
  let http_error (kind : list N) :=
    Exc HTTPError (str_of_int (status_code r) ++ kind ++ reason r
                   ++ lit " for url: " ++ url r) in
  if (400 <=? status_code r) && (status_code r <? 500)
  then Raise (http_error (lit " Client Error: "))
  else if (500 <=? status_code r) && (status_code r <? 600)
  then Raise (http_error (lit " Server Error: "))
  else Ok tt.

(** ** get_video_transcript (lines 7-24) *)

Definition SEARCH_URL : list N := lit "https://www.searchapi.io/api/v1/search".

(** The dict [params], in the order of its keys. *)
Definition transcript_query (video_id api_key : list N)
  : list (list N * list N) :=
  [ (lit "engine", lit "youtube_transcripts");
    (lit "video_id", video_id);
    (lit "api_key", api_key) ].

Definition get_video_transcript (w : world) (video_id api_key : list N)
  : IO pyval :=
  let url := SEARCH_URL in
  let params := transcript_query video_id api_key in
  try_except
    (response ← requests_get w url params;
     _ ← lift (raise_for_status response);
     lift (json response))
    RequestException
    (fun e =>
       _ ← print (lit "Error fetching transcript: " ++ exc_msg e);
       mret PyNone).

(** ** summarize_with_gpt4 (lines 39-57) *)

Definition SYSTEM_PROMPT : list N :=
  lit "You are a helpful assistant that creates concise bullet point summaries of video transcripts.".

Definition USER_PROMPT : list N :=
  lit "Please summarize the following YouTube video transcript into key bullet points, focusing on the main ideas and important details:"
  ++ [LF; LF].

Definition FAILED_SUMMARY : list N := lit "Failed to generate summary.".

(** [choices[0]] *)
Definition first_choice {A} (l : list A) : result A :=
  match l with
  | x :: _ => Ok x
  | [] => Raise (Exc IndexError (lit "list index out of range"))
  end.

(** The client is constructed on line 43, before the [try] of line 45: what
    the constructor raises is not handled here and goes to the caller.  The
    result is what [response.choices[0].message.content] holds, a string or
    [None]. *)
Definition summarize_with_gpt4 (w : world) (transcript_text openai_api_key : list N)
  : IO (option (list N)) :=
  _ ← lift (new_client w openai_api_key);
  let client := chat_create w openai_api_key in
  try_except
    (response ← (fun st =>
         let request :=
           {| model := lit "gpt-4o";
              messages :=
                [ {| role := lit "system"; content := SYSTEM_PROMPT |};
                  {| role := lit "user";
                     content := USER_PROMPT ++ transcript_text |} ];
              max_tokens := 500 |} in
         (client request, emit (EvChat openai_api_key request) st));
     lift (first_choice (choices response)))
    Exception
    (fun e =>
       _ ← print (lit "Error generating summary: " ++ exc_msg e);
       mret (Some FAILED_SUMMARY)).

(** ** main (lines 59-95) *)

(** [a or b] on optional strings: [a] when it is a non-empty string. *)
Definition py_or (a b : option (list N)) : option (list N) :=
  match a with
  | Some (_ :: _) => a
  | _ => b
  end.

(** [if not v: v = input(prompt)] *)
Definition or_input (v : option (list N)) (prompt : list N) : IO (list N) :=
  match v with
  | Some (c :: s) => mret (c :: s)
  | _ => input prompt
  end.

(** [str(summary)], as [print(summary)] writes it. *)
Definition str_of_summary (summary : option (list N)) : list N :=
  match summary with
  | Some s => s
  | None => lit "None"
  end.

Definition FETCH_FAILED : list N :=
  lit "Failed to retrieve transcript. Please check the video ID and API key.".

(** Lines 68-79: the three inputs, from the arguments, else the environment,
    else a prompt. *)
Definition resolve_inputs (w : world) : IO (list N * list N * list N) :=
  let video_id := py_or (ns_video_id (args w)) (environ w !! lit "YOUTUBE_VIDEO_ID") in
  let searchapi_key := py_or (ns_searchapi_key (args w)) (environ w !! lit "SEARCHAPI_KEY") in
  let openai_key := py_or (ns_openai_key (args w)) (environ w !! lit "OPENAI_API_KEY") in
  video_id ← or_input video_id (lit "Enter YouTube video ID: ");
  searchapi_key ← or_input searchapi_key (lit "Enter SearchAPI.io API key: ");
  openai_key ← or_input openai_key (lit "Enter OpenAI API key: ");
  mret (video_id, searchapi_key, openai_key).

(** Lines 81-95: fetch, assemble, summarize, print. *)
Definition fetch_and_summarize (w : world)
    (video_id searchapi_key openai_key : list N) : IO unit :=
  _ ← print (lit "Fetching transcript for video ID: " ++ video_id ++ lit "...");
  transcript_data ← get_video_transcript w video_id searchapi_key;
  if truthy transcript_data then
    _ ← print (lit "Transcript fetched successfully!");
    full_transcript ← lift (process_transcript transcript_data);
    _ ← print (lit "Generating summary...");
    summary ← summarize_with_gpt4 w full_transcript openai_key;
    _ ← print ([LF] ++ lit "--- VIDEO SUMMARY ---" ++ [LF]);
    _ ← print (str_of_summary summary);
    print ([LF] ++ lit "--------------------" ++ [LF])
  else
    print FETCH_FAILED.

Definition main (w : world) : IO unit :=
  inputs ← resolve_inputs w;
  let '(video_id, searchapi_key, openai_key) := inputs in
  fetch_and_summarize w video_id searchapi_key openai_key.

(** The chat requests among the events of a trace. *)
Definition chat_calls (tr : list event) : list (list N * chat_request) :=
  omap (fun ev => match ev with
                  | EvChat k r => Some (k, r)
                  | _ => None
                  end) tr.

(** ** Shapes of transcript data, for the statements below *)

(** A segment that is an object with a string under ["text"]. *)
Definition segment_with_text (segment : pyval) (text : list N) : Prop :=
  ∃ d : gmap (list N) pyval,
    segment = PyDict d ∧ d !! lit "text" = Some (PyStr text).

(** A segment that is an object without the key ["text"]. *)
Definition lacks_text (segment : pyval) : Prop :=
  ∃ d : gmap (list N) pyval, segment = PyDict d ∧ d !! lit "text" = None.

(** A segment of the expected type: an object whose ["text"], when present,
    is a string. *)
Definition segment_object (segment : pyval) : Prop :=
  lacks_text segment ∨ ∃ text, segment_with_text segment text.

(** The input is absent, or an object without the key ["transcripts"]. *)
Definition absent_or_lacks_transcripts (transcript_data : pyval) : Prop :=
  transcript_data = PyNone
  ∨ ∃ d : gmap (list N) pyval,
      transcript_data = PyDict d ∧ d !! lit "transcripts" = None.

(** Every text followed by one space, in order. *)
Definition spaced (texts : list (list N)) : list N :=
  concat (List.map (fun t => t ++ lit " ") texts).

(** [r] is [s] with its leading and trailing whitespace removed: [s] is [r]
    between two runs of whitespace, and [r] neither starts nor ends with
    whitespace. *)
Definition trimmed (s r : list N) : Prop :=
  (∃ pre post,
      s = pre ++ r ++ post
      ∧ Forall (fun c => isspace c = true) pre
      ∧ Forall (fun c => isspace c = true) post)
  ∧ (∀ c, head r = Some c → isspace c = false)
  ∧ (∀ c, last r = Some c → isspace c = false).

(** ** Observations on runs, for the statements below *)

(** The state after some more events. *)
Definition emits (st : state) (evs : list event) : state :=
  {| stdin := stdin st; trace := trace st ++ evs |}.

(** The request of the specification: the model, a system message with the
    persona, a user message with the transcript after the instruction, and a
    cap of 500 tokens. *)
Definition summary_request (transcript_text : list N) : chat_request :=
  {| model := lit "gpt-4o";
     messages :=
       [ {| role := lit "system";
            content := lit "You are a helpful assistant that creates concise bullet point summaries of video transcripts." |};
         {| role := lit "user";
            content := lit "Please summarize the following YouTube video transcript into key bullet points, focusing on the main ideas and important details:"
                       ++ [LF; LF] ++ transcript_text |} ];
     max_tokens := 500 |}.

(** The first progress line. *)
Definition fetching_line (video_id : list N) : event :=
  EvPrint (lit "Fetching transcript for video ID: " ++ video_id ++ lit "...").

(** The lines around and including the summary. *)
Definition summary_block (summary : list N) : list event :=
  [ EvPrint ([LF] ++ lit "--- VIDEO SUMMARY ---" ++ [LF]);
    EvPrint summary;
    EvPrint ([LF] ++ lit "--------------------" ++ [LF]) ].

(** The three logical inputs of the program, with the place of each on the
    command line, in the environment, in the prompts and in the result of
    [resolve_inputs]. *)
Inductive logical_input := VideoId | SearchapiKey | OpenaiKey.

Definition cli_value (w : world) (i : logical_input) : option (list N) :=
  match i with
  | VideoId => ns_video_id (args w)
  | SearchapiKey => ns_searchapi_key (args w)
  | OpenaiKey => ns_openai_key (args w)
  end.

Definition env_value (w : world) (i : logical_input) : option (list N) :=
  match i with
  | VideoId => environ w !! lit "YOUTUBE_VIDEO_ID"
  | SearchapiKey => environ w !! lit "SEARCHAPI_KEY"
  | OpenaiKey => environ w !! lit "OPENAI_API_KEY"
  end.

Definition prompt_of (i : logical_input) : list N :=
  match i with
  | VideoId => lit "Enter YouTube video ID: "
  | SearchapiKey => lit "Enter SearchAPI.io API key: "
  | OpenaiKey => lit "Enter OpenAI API key: "
  end.

Definition resolved (i : logical_input) (inputs : list N * list N * list N)
  : list N :=
  match i with
  | VideoId => inputs.1.1
  | SearchapiKey => inputs.1.2
  | OpenaiKey => inputs.2
  end.

(** A value that is given and not the empty string. *)
Definition given (v : option (list N)) : bool :=
  match v with
  | Some (_ :: _) => true
  | _ => false
  end.

(** What the [try] block of [summarize_with_gpt4] raises, once the client is
    constructed: the exception of the call, or the [IndexError] of
    [choices[0]] on an empty list. *)
Definition summarization_raises (w : world) (transcript_text openai_api_key : list N)
    (e : exc) : Prop :=
  new_client w openai_api_key = Ok tt
  ∧ (chat_create w openai_api_key (summary_request transcript_text) = Raise e
     ∨ ∃ completion,
         chat_create w openai_api_key (summary_request transcript_text) = Ok completion
         ∧ choices completion = []
         ∧ e = Exc IndexError (lit "list index out of range")).

(** ** Sample worlds and runs *)

(** The constructor of the samples: it refuses the empty key with the
    [OpenAIError] of the client library and accepts every other key. *)
Definition sample_new_client (key : list N) : result unit :=
  match key with
  | [] => Raise (Exc OpenAIError
                   (lit "The api_key client option must be set either by passing api_key to the client or by setting the OPENAI_API_KEY environment variable"))
  | _ :: _ => Ok tt
  end.

(** A world whose two services answer every call in the same way. *)
Definition sample_world (a : namespace) (env : gmap (list N) (list N))
    (http : result response) (chat : result chat_completion) : world :=
  {| args := a;
     environ := env;
     http_get := fun _ _ => http;
     new_client := sample_new_client;
     chat_create := fun _ _ => chat |}.

(** All three inputs on the command line. *)
Definition cli_args : namespace :=
  {| ns_video_id := Some (lit "dQw4w9WgXcQ");
     ns_searchapi_key := Some (lit "search-key");
     ns_openai_key := Some (lit "openai-key") |}.

Definition sample_url : list N :=
  lit "https://www.searchapi.io/api/v1/search?engine=youtube_transcripts&video_id=dQw4w9WgXcQ&api_key=search-key".

Definition sample_summary : result chat_completion :=
  Ok {| choices := [Some (lit "- a greeting")] |}.

(** Nothing typed on standard input, nothing done yet. *)
Definition st0 : state := {| stdin := []; trace := [] |}.

(** Two segments, "Hello" and "world". *)
Definition hello_world : pyval :=
  PyDict {[ lit "transcripts" :=
              PyList [ PyDict {[ lit "text" := PyStr (lit "Hello") ]};
                       PyDict {[ lit "text" := PyStr (lit "world") ]} ] ]}.

(** The service answers 404 with an error body. *)
Definition w_404 : world :=
  sample_world cli_args ∅
    (Ok {| status_code := 404; reason := lit "Not Found"; url := sample_url;
           json := Ok (PyDict {[ lit "error" := PyStr (lit "Video not found") ]}) |})
    sample_summary.

(** The connection times out. *)
Definition w_timeout : world :=
  sample_world cli_args ∅
    (Raise (Exc ReadTimeout (lit "Read timed out.")))
    sample_summary.

(** The service answers 300 Multiple Choices with a JSON body. *)
Definition w_300 : world :=
  sample_world cli_args ∅
    (Ok {| status_code := 300; reason := lit "Multiple Choices"; url := sample_url;
           json := Ok hello_world |})
    sample_summary.

(** The service answers 200 with the empty object. *)
Definition w_empty_object : world :=
  sample_world cli_args ∅
    (Ok {| status_code := 200; reason := lit "OK"; url := sample_url;
           json := Ok (PyDict ∅) |})
    sample_summary.

(** The service answers 200 with [{"transcripts": null}]. *)
Definition w_null_transcripts : world :=
  sample_world cli_args ∅
    (Ok {| status_code := 200; reason := lit "OK"; url := sample_url;
           json := Ok (PyDict {[ lit "transcripts" := PyNone ]}) |})
    sample_summary.

(** The service answers 200 with an object that has no transcripts. *)
Definition w_no_transcripts : world :=
  sample_world cli_args ∅
    (Ok {| status_code := 200; reason := lit "OK"; url := sample_url;
           json := Ok (PyDict {[ lit "error" := PyStr (lit "Video not found") ]}) |})
    sample_summary.

(** The service answers 200 with [{"transcripts": []}]. *)
Definition w_empty_list : world :=
  sample_world cli_args ∅
    (Ok {| status_code := 200; reason := lit "OK"; url := sample_url;
           json := Ok (PyDict {[ lit "transcripts" := PyList [] ]}) |})
    sample_summary.

(** The transcript arrives, the chat service cannot be reached. *)
Definition w_chat_down : world :=
  sample_world cli_args ∅
    (Ok {| status_code := 200; reason := lit "OK"; url := sample_url;
           json := Ok hello_world |})
    (Raise (Exc APIConnectionError (lit "Connection error."))).

(** The video id is on the command line and in the environment; the two
    keys are nowhere. *)
Definition w_cli_and_env : world :=
  sample_world
    {| ns_video_id := Some (lit "from-cli"); ns_searchapi_key := None;
       ns_openai_key := None |}
    {[ lit "YOUTUBE_VIDEO_ID" := lit "from-env" ]}
    (Raise (Exc ReadTimeout (lit "Read timed out."))) sample_summary.

(** [--video_id ""] on the command line, a video id in the environment; the
    search key is set to the empty string in the environment. *)
Definition w_empty_cli : world :=
  sample_world
    {| ns_video_id := Some []; ns_searchapi_key := None;
       ns_openai_key := Some (lit "openai-key") |}
    {[ lit "YOUTUBE_VIDEO_ID" := lit "from-env"; lit "SEARCHAPI_KEY" := [] ]}
    (Raise (Exc ReadTimeout (lit "Read timed out."))) sample_summary.

(** ** Further observations, for the properties beyond the claims *)

(** [" ".join(texts)] *)
Fixpoint join_spaces (texts : list (list N)) : list N :=
  match texts with
  | [] => []
  | [t] => t
  | t :: rest => t ++ lit " " ++ join_spaces rest
  end.

(** Two segment objects with the same entry, or the same absence of one,
    under ["text"]. *)
Definition same_text (segment segment' : pyval) : Prop :=
  ∃ d d' : gmap (list N) pyval,
    segment = PyDict d ∧ segment' = PyDict d'
    ∧ d !! lit "text" = d' !! lit "text".

(** A string starts, or ends, with a character that is not whitespace. *)
Definition starts_solid (s : list N) : Prop :=
  ∃ c, head s = Some c ∧ isspace c = false.

Definition ends_solid (s : list N) : Prop :=
  ∃ c, last s = Some c ∧ isspace c = false.

(** One of the three steps inside the [try] of [get_video_transcript] raises
    [e]: the request, the status check, or the decoding of the body. *)
Definition fetch_raises (w : world) (video_id api_key : list N) (e : exc) : Prop :=
  http_get w SEARCH_URL (transcript_query video_id api_key) = Raise e
  ∨ ∃ r, http_get w SEARCH_URL (transcript_query video_id api_key) = Ok r
         ∧ (raise_for_status r = Raise e
            ∨ (raise_for_status r = Ok tt ∧ json r = Raise e)).

(** The HTTP requests among the events of a trace. *)
Definition get_calls (tr : list event) : list (list N * list (list N * list N)) :=
  omap (fun ev => match ev with
                  | EvGet u q => Some (u, q)
                  | _ => None
                  end) tr.

(** The lines printed among the events of a trace. *)
Definition printed (tr : list event) : list (list N) :=
  omap (fun ev => match ev with
                  | EvPrint line => Some line
                  | _ => None
                  end) tr.

(** The inputs that neither the command line nor the environment gives, in
    the order in which [main] asks for them. *)
Definition missing_inputs (w : world) : list logical_input :=
  List.filter (fun i => negb (given (cli_value w i) || given (env_value w i)))
    [VideoId; SearchapiKey; OpenaiKey].

(** Nothing on the command line, nothing in the environment. *)
Definition w_nothing_given : world :=
  sample_world
    {| ns_video_id := None; ns_searchapi_key := None; ns_openai_key := None |}
    ∅
    (Ok {| status_code := 200; reason := lit "OK"; url := sample_url;
           json := Ok hello_world |})
    sample_summary.

(** The transcript arrives and the chat service answers. *)
Definition w_all_fine : world :=
  sample_world cli_args ∅
    (Ok {| status_code := 200; reason := lit "OK"; url := sample_url;
           json := Ok hello_world |})
    sample_summary.

(** The chat service answers with a first choice that has no content. *)
Definition w_no_content : world :=
  sample_world cli_args ∅
    (Ok {| status_code := 200; reason := lit "OK"; url := sample_url;
           json := Ok hello_world |})
    (Ok {| choices := [None; Some (lit "- second choice")] |}).

(** The body of the response is not JSON; [response.json()] raises the
    [JSONDecodeError] of [requests]. *)
Definition w_bad_body : world :=
  sample_world cli_args ∅
    (Ok {| status_code := 200; reason := lit "OK"; url := sample_url;
           json := Raise (Exc JSONDecodeError
                            (lit "Expecting value: line 1 column 1 (char 0)")) |})
    sample_summary.

(** The user interrupts the request, and the chat call. *)
Definition w_interrupted : world :=
  sample_world cli_args ∅
    (Raise (Exc KeyboardInterrupt []))
    (Raise (Exc KeyboardInterrupt [])).

(** The transcript arrives, the user interrupts the chat call. *)
Definition w_chat_interrupted : world :=
  sample_world cli_args ∅
    (Ok {| status_code := 200; reason := lit "OK"; url := sample_url;
           json := Ok hello_world |})
    (Raise (Exc KeyboardInterrupt [])).

(** A segment whose text is a number. *)
Definition w_number_text : world :=
  sample_world cli_args ∅
    (Ok {| status_code := 200; reason := lit "OK"; url := sample_url;
           json := Ok (PyDict {[ lit "transcripts" :=
                                   PyList [PyDict {[ lit "text" := PyInt 7 ]}] ]}) |})
    sample_summary.

(** * Properties of process_transcript *)

Lemma truthy_dict_lookup (d : gmap (list N) pyval) k v :
  d !! k = Some v → truthy (PyDict d) = true.
Proof.
  intros Hk. cbn [truthy]. rewrite bool_decide_eq_false_2; [done|].
  intros ->. by rewrite lookup_empty in Hk.
Qed.

(** With a list under ["transcripts"], the function is the loop followed by
    [strip]. *)
Lemma process_transcript_list (d : gmap (list N) pyval) segs :
  d !! lit "transcripts" = Some (PyList segs) →
  process_transcript (PyDict d)
  = (full_transcript ← join_segments segs []; Ok (strip full_transcript)).
Proof.
  intros Hk. unfold process_transcript.
  rewrite (truthy_dict_lookup _ _ _ Hk). cbn [negb py_in getitem].
  rewrite Hk. rewrite bool_decide_eq_true_2 by eauto. reflexivity.
Qed.

Lemma join_segments_spaced segs texts acc :
  Forall2 segment_with_text segs texts →
  join_segments segs acc = Ok (acc ++ spaced texts).
Proof.
  intros H. revert acc.
  induction H as [|seg t segs texts (d & -> & Ht) _ IH]; intros acc.
  - cbn. by rewrite app_nil_r.
  - cbn [join_segments getitem]. rewrite Ht. cbn.
    rewrite IH. unfold spaced. cbn. by rewrite <- !app_assoc.
Qed.

Lemma lstrip_spec s :
  (∃ pre, s = pre ++ lstrip s ∧ Forall (fun c => isspace c = true) pre)
  ∧ (∀ c, head (lstrip s) = Some c → isspace c = false).
Proof.
  induction s as [|c s [(pre & Hs & Hpre) Hhead]]; cbn [lstrip].
  - split; [by exists []|]. by intros c [=].
  - destruct (isspace c) eqn:Hc.
    + split; [|done]. exists (c :: pre). split; [by rewrite Hs at 1|].
      by constructor.
    + split; [by exists []|]. by intros ? [= <-].
Qed.

Lemma rev_is_reverse {A} (l : list A) : rev l = reverse l.
Proof. apply rev_alt. Qed.

(** [strip] removes the whitespace at both ends and nothing else. *)
Lemma strip_trimmed s : trimmed s (strip s).
Proof.
  unfold strip, rstrip.
  destruct (lstrip_spec s) as [(pre & Hs & Hpre) Hhead].
  destruct (lstrip_spec (rev (lstrip s))) as [(q & Hq & Hspace) Hlast].
  assert (Hmid : lstrip s = rev (lstrip (rev (lstrip s))) ++ rev q).
  { rewrite <- rev_app_distr, <- Hq. by rewrite rev_involutive. }
  split; [|split].
  - exists pre, (rev q). split; [by rewrite <- Hmid|]. split; [done|].
    rewrite rev_is_reverse. by apply Forall_reverse.
  - intros c Hc. apply Hhead. rewrite Hmid.
    destruct (rev (lstrip (rev (lstrip s)))); [done|]. exact Hc.
  - intros c Hc. apply Hlast. rewrite rev_is_reverse in Hc.
    by rewrite last_reverse in Hc.
Qed.

(** C1: with a segment list under ["transcripts"] whose segments all carry a
    text, [process_transcript] returns the texts in list order, each followed
    by one space, with the leading and trailing whitespace of the whole
    removed. *)
Theorem process_transcript_joins_texts (d : gmap (list N) pyval) segs texts :
  d !! lit "transcripts" = Some (PyList segs) →
  Forall2 segment_with_text segs texts →
  process_transcript (PyDict d) = Ok (strip (spaced texts))
  ∧ trimmed (spaced texts) (strip (spaced texts)).
Proof.
  intros Hk Hsegs. split; [|apply strip_trimmed].
  rewrite (process_transcript_list _ _ Hk).
  by rewrite (join_segments_spaced _ _ [] Hsegs).
Qed.

(** C1, the instance of the specification: two segments "Hello" and "world"
    give exactly "Hello world". *)
Lemma process_transcript_hello_world :
  process_transcript hello_world = Ok (lit "Hello world").
Proof.
  change (lit "Hello world") with (strip (spaced [lit "Hello"; lit "world"])).
  eapply proj1, process_transcript_joins_texts.
  - reflexivity.
  - repeat constructor; eexists; (split; [reflexivity|]); reflexivity.
Defined.

(** A dict without the key ["transcripts"], empty or not, gives the
    sentinel. *)
Lemma process_transcript_without_key (d : gmap (list N) pyval) :
  d !! lit "transcripts" = None →
  process_transcript (PyDict d) = Ok NO_TRANSCRIPT.
Proof.
  intros Hk. unfold process_transcript.
  destruct (truthy (PyDict d)); [|reflexivity].
  cbn [negb py_in]. rewrite Hk.
  rewrite bool_decide_eq_false_2 by (by intros [? ?]). reflexivity.
Qed.

(** C2: for [None], and for an object without the key ["transcripts"],
    [process_transcript] returns the literal "No transcript available."; it
    returns, so nothing is raised. *)
Theorem process_transcript_no_transcript (transcript_data : pyval) :
  absent_or_lacks_transcripts transcript_data →
  process_transcript transcript_data = Ok (lit "No transcript available.").
Proof.
  intros [Hnone | (d & Hdict & Hk)]; subst transcript_data.
  - unfold process_transcript. cbn [truthy negb]. reflexivity.
  - by apply process_transcript_without_key.
Qed.

Lemma process_transcript_no_transcript_witness :
  process_transcript PyNone = Ok (lit "No transcript available.")
  ∧ process_transcript (PyDict {[ lit "error" := PyStr (lit "quota") ]})
    = Ok (lit "No transcript available.")
  ∧ process_transcript (PyDict ∅) = Ok (lit "No transcript available.").
Proof.
  split; [|split]; apply process_transcript_no_transcript.
  - by left.
  - right. eexists. split; [reflexivity|]. reflexivity.
  - right. eexists. split; [reflexivity|]. reflexivity.
Defined.

Lemma lacks_text_not_with_text seg t :
  lacks_text seg → segment_with_text seg t → False.
Proof. intros (d & -> & Hd) (d' & [= <-] & Hd'). congruence. Qed.

Lemma with_text_not_lacking segs texts :
  Forall2 segment_with_text segs texts → ¬ Exists lacks_text segs.
Proof.
  induction 1 as [|seg t segs texts Hst _ IH]; intros Hex.
  - inversion Hex.
  - inversion Hex; subst; eauto using lacks_text_not_with_text.
Qed.

(** Over segments of the expected type the loop either finds one without a
    text and raises [KeyError('text')], or joins the texts. *)
Lemma join_segments_objects segs acc :
  Forall segment_object segs →
  (Exists lacks_text segs
   ∧ join_segments segs acc = Raise (Exc KeyError (lit "'text'")))
  ∨ (∃ texts, Forall2 segment_with_text segs texts
              ∧ join_segments segs acc = Ok (acc ++ spaced texts)).
Proof.
  intros H. revert acc. induction H as [|seg segs Hseg _ IH]; intros acc.
  - right. exists []. split; [constructor|]. cbn. by rewrite app_nil_r.
  - destruct Hseg as [Hl | [t Ht]].
    + left. split; [by constructor|].
      destruct Hl as (d & -> & Hd). cbn [join_segments getitem]. by rewrite Hd.
    + pose proof Ht as (d & -> & Hd). cbn [join_segments getitem]. rewrite Hd. cbn.
      destruct (IH (acc ++ t ++ lit " ")) as [[Hex ->] | (texts & Hall & ->)].
      * left. split; [by apply Exists_cons_tl|done].
      * right. exists (t :: texts). split; [by constructor|].
        unfold spaced. cbn. by rewrite <- !app_assoc.
Qed.

(** Whatever the items are, a [KeyError] out of the loop comes from an object
    without the key ["text"]. *)
Lemma join_segments_KeyError segs acc e :
  join_segments segs acc = Raise e → exc_cls e = KeyError →
  Exists lacks_text segs.
Proof.
  revert acc. induction segs as [|seg segs IH]; intros acc Hrun Hcls; [done|].
  cbn [join_segments] in Hrun.
  destruct seg as [| | | | |l|d]; cbn in Hrun; try (injection Hrun as <-; done).
  destruct (d !! lit "text") as [v|] eqn:Hd.
  - apply Exists_cons_tl.
    destruct v; cbn in Hrun; try (injection Hrun as <-; done).
    by eapply IH.
  - apply Exists_cons_hd. by exists d.
Qed.

(** A segment without the key ["text"] in the list makes the loop raise, at
    that segment or before it. *)
Lemma join_segments_lacking_raises segs acc :
  Exists lacks_text segs → ∃ e, join_segments segs acc = Raise e.
Proof.
  intros H. revert acc. induction H as [seg segs (d & -> & Hd)|seg segs _ IH];
    intros acc; cbn [join_segments].
  - cbn. rewrite Hd. eauto.
  - destruct (getitem seg (lit "text")) as [text|e]; cbn; [|eauto].
    destruct (add_str text (lit " ")) as [piece|e]; cbn; [|eauto].
    apply IH.
Qed.

Lemma process_transcript_KeyError x e :
  process_transcript x = Raise e → exc_cls e = KeyError →
  ∃ (d : gmap (list N) pyval) segs,
    x = PyDict d ∧ d !! lit "transcripts" = Some (PyList segs)
    ∧ Exists lacks_text segs.
Proof.
  unfold process_transcript. intros Hrun Hcls.
  destruct (truthy x); cbn [negb] in Hrun; [|done].
  destruct x as [| | | |s|l|d]; cbn in Hrun; try (injection Hrun as <-; done).
  - destruct (str_contains _ s); cbn in Hrun; [injection Hrun as <-|]; done.
  - destruct (existsb _ l); cbn in Hrun; [injection Hrun as <-|]; done.
  - destruct (d !! lit "transcripts") as [v|] eqn:Hd.
    2:{ rewrite bool_decide_eq_false_2 in Hrun by (by intros [? ?]). done. }
    rewrite bool_decide_eq_true_2 in Hrun by eauto. cbn in Hrun.
    destruct v as [| | | |s|segs|d']; cbn in Hrun;
      try (injection Hrun as <-; done).
    + destruct (join_segments _ _) as [?|e'] eqn:Hj in Hrun; [done|].
      injection Hrun as ->.
      apply join_segments_KeyError in Hj; [|done].
      apply Exists_exists in Hj as (seg & Hin & (? & -> & _)).
      apply list_elem_of_In, in_map_iff in Hin as (? & [=] & _).
    + destruct (join_segments segs []) as [?|e'] eqn:Hj in Hrun; [done|].
      injection Hrun as ->. exists d, segs. eauto using join_segments_KeyError.
    + destruct (join_segments _ _) as [?|e'] eqn:Hj in Hrun; [done|].
      injection Hrun as ->.
      apply join_segments_KeyError in Hj; [|done].
      apply Exists_exists in Hj as (seg & Hin & (? & -> & _)).
      apply list_elem_of_In, in_map_iff in Hin as (? & [=] & _).
Qed.

(** C8: some input with a segment list in which a segment lacks the text
    field makes [process_transcript] raise [KeyError('text')] (no default is
    substituted); over segment objects it raises exactly when some segment
    lacks the field; on any input a [KeyError] means that a segment of the
    list lacks it; and a segment lacking it always makes the function
    raise. *)
Theorem process_transcript_missing_text_raises :
  (∃ (d : gmap (list N) pyval) segs,
      d !! lit "transcripts" = Some (PyList segs)
      ∧ Exists lacks_text segs
      ∧ process_transcript (PyDict d) = Raise (Exc KeyError (lit "'text'")))
  ∧ (∀ (d : gmap (list N) pyval) segs,
        d !! lit "transcripts" = Some (PyList segs) →
        Forall segment_object segs →
        (process_transcript (PyDict d) = Raise (Exc KeyError (lit "'text'"))
         ↔ Exists lacks_text segs)
        ∧ ((∃ e, process_transcript (PyDict d) = Raise e)
           ↔ Exists lacks_text segs))
  ∧ (∀ x e,
        process_transcript x = Raise e → exc_cls e = KeyError →
        ∃ (d : gmap (list N) pyval) segs,
          x = PyDict d ∧ d !! lit "transcripts" = Some (PyList segs)
          ∧ Exists lacks_text segs)
  ∧ (∀ (d : gmap (list N) pyval) segs,
        d !! lit "transcripts" = Some (PyList segs) →
        Exists lacks_text segs →
        ∃ e, process_transcript (PyDict d) = Raise e).
Proof.
  split; [|split; [|split]].
  4:{ intros d segs Hk Hex. rewrite (process_transcript_list _ _ Hk).
      destruct (join_segments_lacking_raises segs [] Hex) as [e ->]. by exists e. }
  - exists {[ lit "transcripts" := PyList [PyDict ∅] ]}, [PyDict ∅].
    split; [reflexivity|]. split; [|reflexivity].
    apply Exists_cons_hd. exists ∅. split; reflexivity.
  - intros d segs Hk Hsegs. rewrite (process_transcript_list _ _ Hk).
    destruct (join_segments_objects segs [] Hsegs)
      as [[Hex ->] | (texts & Hall & ->)]; cbn.
    + split; split; eauto.
    + pose proof (with_text_not_lacking _ _ Hall) as Hno.
      split; split; try done. by intros [e ?].
  - apply process_transcript_KeyError.
Qed.

Lemma process_transcript_missing_text_witness :
  process_transcript
    (PyDict {[ lit "transcripts" :=
                 PyList [ PyDict {[ lit "text" := PyStr (lit "Hello") ]};
                          PyDict {[ lit "start" := PyInt 3 ]} ] ]})
  = Raise (Exc KeyError (lit "'text'")).
Proof.
  destruct process_transcript_missing_text_raises as (_ & Hiff & _).
  eapply Hiff.
  - reflexivity.
  - constructor; [|constructor; [|constructor]].
    + right. exists (lit "Hello"). eexists. split; reflexivity.
    + left. eexists. split; reflexivity.
  - apply Exists_cons_tl, Exists_cons_hd. eexists. split; reflexivity.
Defined.

(** * Runs: states, traces and the two remote calls *)

Lemma emit_emits ev st : emit ev st = emits st [ev].
Proof. reflexivity. Qed.

Lemma emits_emits st evs evs' : emits (emits st evs) evs' = emits st (evs ++ evs').
Proof. unfold emits. cbn. by rewrite app_assoc. Qed.

Lemma chat_calls_app tr tr' : chat_calls (tr ++ tr') = chat_calls tr ++ chat_calls tr'.
Proof. apply omap_app. Qed.

Lemma issubclass_ConnectionError c :
  issubclass c ConnectionError = true → issubclass c RequestException = true.
Proof. destruct c; vm_compute; congruence. Qed.

Lemma issubclass_Timeout c :
  issubclass c Timeout = true → issubclass c RequestException = true.
Proof. destruct c; vm_compute; congruence. Qed.

(** [get_video_transcript], case by case on what the service does. *)
Lemma get_video_transcript_cases w video_id api_key st :
  let get := EvGet SEARCH_URL (transcript_query video_id api_key) in
  let caught e :=
    if isinstance e RequestException
    then (Ok PyNone,
          emits st [get; EvPrint (lit "Error fetching transcript: " ++ exc_msg e)])
    else (Raise e, emits st [get]) in
  get_video_transcript w video_id api_key st
  = match http_get w SEARCH_URL (transcript_query video_id api_key) with
    | Raise e => caught e
    | Ok r =>
        match raise_for_status r with
        | Raise e => caught e
        | Ok _ =>
            match json r with
            | Raise e => caught e
            | Ok v => (Ok v, emits st [get])
            end
        end
    end.
Proof.
  cbn zeta. unfold get_video_transcript, try_except, requests_get, lift, print.
  unfold mbind, IO_bind, mret, IO_ret.
  destruct (http_get _ _ _) as [r|e]; [destruct (raise_for_status r) as [[]|e]|];
    [destruct (json r) as [v|e]| |];
    try reflexivity; destruct (isinstance e _);
    rewrite ?emit_emits, ?emits_emits; reflexivity.
Qed.

(** [get_video_transcript] reads no input and sends no chat request. *)
Lemma get_video_transcript_events w video_id api_key st r st' :
  get_video_transcript w video_id api_key st = (r, st') →
  ∃ evs, st' = emits st evs ∧ chat_calls evs = [].
Proof.
  rewrite get_video_transcript_cases. cbn zeta.
  repeat case_match; intros [= <- <-]; eexists; (split; [reflexivity|]); reflexivity.
Qed.

(** [raise_for_status] on a status from 400 to 599. *)
Lemma raise_for_status_error r :
  400 ≤ status_code r < 600 →
  raise_for_status r
  = Raise (Exc HTTPError
             (str_of_int (status_code r)
              ++ (if status_code r <? 500 then lit " Client Error: "
                  else lit " Server Error: ")
              ++ reason r ++ lit " for url: " ++ url r)).
Proof.
  intros [Hlo Hhi]. unfold raise_for_status.
  assert ((400 <=? status_code r) = true) as -> by lia. cbn [andb].
  destruct (status_code r <? 500) eqn:H5; [reflexivity|].
  assert ((500 <=? status_code r) = true) as -> by lia.
  assert ((status_code r <? 600) = true) as -> by lia. reflexivity.
Qed.

(** [raise_for_status] on any other status. *)
Lemma raise_for_status_pass r :
  ¬ (400 ≤ status_code r < 600) → raise_for_status r = Ok tt.
Proof.
  intros H. unfold raise_for_status.
  destruct (400 <=? status_code r) eqn:H4, (status_code r <? 500) eqn:H5,
    (500 <=? status_code r) eqn:H5', (status_code r <? 600) eqn:H6;
    cbn; try reflexivity; lia.
Qed.

(** [summarize_with_gpt4], case by case on what the service does. *)
Lemma summarize_with_gpt4_cases w transcript_text openai_api_key st :
  let chat := EvChat openai_api_key (summary_request transcript_text) in
  let caught e :=
    if isinstance e Exception
    then (Ok (Some (lit "Failed to generate summary.")),
          emits st [chat; EvPrint (lit "Error generating summary: " ++ exc_msg e)])
    else (Raise e, emits st [chat]) in
  summarize_with_gpt4 w transcript_text openai_api_key st
  = match new_client w openai_api_key with
    | Raise e => (Raise e, st)
    | Ok _ =>
        match chat_create w openai_api_key (summary_request transcript_text) with
        | Raise e => caught e
        | Ok completion =>
            match choices completion with
            | [] => caught (Exc IndexError (lit "list index out of range"))
            | first :: _ => (Ok first, emits st [chat])
            end
        end
    end.
Proof.
  cbn zeta. unfold summarize_with_gpt4, try_except, lift, print.
  unfold mbind, IO_bind, mret, IO_ret.
  change (ChatRequest _ _ _) with (summary_request transcript_text).
  destruct (new_client _ _) as [[]|e0]; [|reflexivity].
  destruct (chat_create _ _ _) as [[[|first rest]]|e];
    cbn [first_choice choices]; try reflexivity;
    [|destruct (isinstance e _)];
    rewrite ?emit_emits, ?emits_emits; reflexivity.
Qed.

Lemma emits_nil st : emits st [] = st.
Proof. destruct st. unfold emits. cbn. by rewrite app_nil_r. Qed.

(** With the client constructed, [summarize_with_gpt4] sends exactly one
    chat request, the one of the specification, and reads no input. *)
Lemma summarize_with_gpt4_events w transcript_text openai_api_key st r st' :
  new_client w openai_api_key = Ok tt →
  summarize_with_gpt4 w transcript_text openai_api_key st = (r, st') →
  ∃ evs, st' = emits st evs
         ∧ chat_calls evs = [(openai_api_key, summary_request transcript_text)].
Proof.
  intros Hclient. rewrite summarize_with_gpt4_cases, Hclient. cbn zeta.
  repeat case_match; intros [= <- <-]; eexists; (split; [reflexivity|]); reflexivity.
Qed.

(** When the constructor raises, [summarize_with_gpt4] raises the same to
    its caller and does nothing else. *)
Lemma summarize_with_gpt4_no_client w transcript_text openai_api_key st e :
  new_client w openai_api_key = Raise e →
  summarize_with_gpt4 w transcript_text openai_api_key st = (Raise e, st).
Proof. intros Hclient. by rewrite summarize_with_gpt4_cases, Hclient. Qed.

(** * Runs: input resolution and the orchestrator *)

Lemma given_py_or a b : given (py_or a b) = given a || given b.
Proof. by destruct a as [[|? ?]|]. Qed.

Lemma py_or_given a b : given a = true → py_or a b = a.
Proof. by destruct a as [[|? ?]|]. Qed.

Lemma py_or_not_given a b : given a = false → py_or a b = b.
Proof. by destruct a as [[|? ?]|]. Qed.

(** [if not v: v = input(prompt)]: a given value is kept and nothing is
    asked; otherwise the prompt is written and a line is read. *)
Lemma or_input_Ok v prompt st x st' :
  or_input v prompt st = (Ok x, st') →
  (given v = true ∧ v = Some x ∧ st' = st)
  ∨ (given v = false
     ∧ stdin st = x :: stdin st'
     ∧ trace st' = trace st ++ [EvPrompt prompt]).
Proof.
  unfold or_input, input. destruct v as [[|c s]|]; cbn.
  2:{ intros [= <- <-]. by left. }
  all: destruct (stdin st) as [|line rest] eqn:Hin; intros [= <- <-];
    right; by rewrite ?Hin.
Qed.

Lemma resolve_inputs_Ok w st video_id searchapi_key openai_key st' :
  resolve_inputs w st = (Ok (video_id, searchapi_key, openai_key), st') →
  ∃ st1 st2,
    or_input (py_or (cli_value w VideoId) (env_value w VideoId))
      (prompt_of VideoId) st = (Ok video_id, st1)
    ∧ or_input (py_or (cli_value w SearchapiKey) (env_value w SearchapiKey))
        (prompt_of SearchapiKey) st1 = (Ok searchapi_key, st2)
    ∧ or_input (py_or (cli_value w OpenaiKey) (env_value w OpenaiKey))
        (prompt_of OpenaiKey) st2 = (Ok openai_key, st').
Proof.
  unfold resolve_inputs, cli_value, env_value, prompt_of.
  unfold mbind, IO_bind, mret, IO_ret. cbn zeta.
  destruct (or_input _ _ st) as [[a|?] st1] eqn:H1; [|intros [=]].
  destruct (or_input _ _ st1) as [[b|?] st2] eqn:H2; [|intros [=]].
  destruct (or_input _ _ st2) as [[c|?] st3] eqn:H3; [|intros [=]].
  intros [= <- <- <- <-]. exists st1, st2. auto.
Qed.

(** The prompts of [resolve_inputs] add no chat request. *)
Lemma or_input_chat_calls v prompt st r st' :
  or_input v prompt st = (r, st') →
  chat_calls (trace st') = chat_calls (trace st).
Proof.
  unfold or_input, input. destruct v as [[|c s]|]; cbn.
  2:{ by intros [= <- <-]. }
  all: destruct (stdin st); intros [= <- <-]; cbn;
    by rewrite chat_calls_app, app_nil_r.
Qed.

Lemma resolve_inputs_chat_calls w st r st' :
  resolve_inputs w st = (r, st') →
  chat_calls (trace st') = chat_calls (trace st).
Proof.
  unfold resolve_inputs. unfold mbind, IO_bind, mret, IO_ret. cbn zeta.
  destruct (or_input _ _ st) as [[a|?] st1] eqn:H1.
  2:{ intros [= <- <-]. apply (or_input_chat_calls _ _ _ _ _ H1). }
  apply or_input_chat_calls in H1.
  destruct (or_input _ _ st1) as [[b|?] st2] eqn:H2.
  2:{ intros [= <- <-]. rewrite <- H1. apply (or_input_chat_calls _ _ _ _ _ H2). }
  apply or_input_chat_calls in H2.
  destruct (or_input _ _ st2) as [[c|?] st3] eqn:H3; intros [= <- <-];
    rewrite <- H1, <- H2; apply (or_input_chat_calls _ _ _ _ _ H3).
Qed.

(** [main] is [resolve_inputs] followed by [fetch_and_summarize]. *)
Lemma main_resolved w st video_id searchapi_key openai_key st1 :
  resolve_inputs w st = (Ok (video_id, searchapi_key, openai_key), st1) →
  main w st = fetch_and_summarize w video_id searchapi_key openai_key st1.
Proof. intros H. unfold main, mbind, IO_bind. by rewrite H. Qed.

(** [fetch_and_summarize], case by case on its three steps. *)
Lemma fetch_and_summarize_cases w video_id searchapi_key openai_key st :
  fetch_and_summarize w video_id searchapi_key openai_key st
  = match get_video_transcript w video_id searchapi_key
            (emits st [fetching_line video_id]) with
    | (Raise e, st2) => (Raise e, st2)
    | (Ok transcript_data, st2) =>
        if truthy transcript_data then
          let fetched := EvPrint (lit "Transcript fetched successfully!") in
          match process_transcript transcript_data with
          | Raise e => (Raise e, emits st2 [fetched])
          | Ok full_transcript =>
              match summarize_with_gpt4 w full_transcript openai_key
                      (emits st2 [fetched; EvPrint (lit "Generating summary...")])
              with
              | (Raise e, st3) => (Raise e, st3)
              | (Ok summary, st3) =>
                  (Ok tt, emits st3 (summary_block (str_of_summary summary)))
              end
          end
        else
          (Ok tt, emits st2 [EvPrint (lit "Failed to retrieve transcript. Please check the video ID and API key.")])
    end.
Proof.
  unfold fetch_and_summarize, print, lift. unfold mbind, IO_bind. cbn zeta.
  rewrite emit_emits.
  destruct (get_video_transcript _ _ _ _) as [[v|e] st2]; [|reflexivity].
  destruct (truthy v); [|by rewrite emit_emits].
  rewrite emit_emits.
  destruct (process_transcript v) as [t|e]; [|reflexivity].
  rewrite emit_emits, emits_emits. cbn [app].
  destruct (summarize_with_gpt4 _ _ _ _) as [[summary|e] st3]; [|reflexivity].
  by rewrite !emit_emits, !emits_emits.
Qed.

Lemma chat_calls_emits st evs :
  chat_calls (trace (emits st evs)) = chat_calls (trace st) ++ chat_calls evs.
Proof. apply chat_calls_app. Qed.

(** * The claims about the fetcher, the summarizer and the orchestrator *)

(** C7, as amended: when the request raises a connection error or a
    timeout, and when the response has an error status (400 to 599, for
    which [raise_for_status] raises [HTTPError]), [get_video_transcript]
    prints "Error fetching transcript: " followed by the text of the
    exception and returns [None]; it raises nothing. *)
Theorem get_video_transcript_failure w video_id api_key st :
  let get := EvGet SEARCH_URL (transcript_query video_id api_key) in
  (∀ e,
      http_get w SEARCH_URL (transcript_query video_id api_key) = Raise e →
      isinstance e ConnectionError = true ∨ isinstance e Timeout = true →
      get_video_transcript w video_id api_key st
      = (Ok PyNone,
         emits st [get; EvPrint (lit "Error fetching transcript: " ++ exc_msg e)]))
  ∧ (∀ r,
        http_get w SEARCH_URL (transcript_query video_id api_key) = Ok r →
        400 ≤ status_code r < 600 →
        ∃ e, raise_for_status r = Raise e
             ∧ exc_cls e = HTTPError
             ∧ get_video_transcript w video_id api_key st
               = (Ok PyNone,
                  emits st [get; EvPrint (lit "Error fetching transcript: "
                                          ++ exc_msg e)])).
Proof.
  cbn zeta. split.
  - intros e Hget Hcls. rewrite get_video_transcript_cases, Hget. cbn zeta.
    assert (isinstance e RequestException = true) as ->; [|reflexivity].
    unfold isinstance in *.
    destruct Hcls as [Hcls | Hcls];
      [by apply issubclass_ConnectionError | by apply issubclass_Timeout].
  - intros r Hget Hstatus. eexists. split; [by apply raise_for_status_error|].
    split; [reflexivity|].
    rewrite get_video_transcript_cases, Hget.
    by rewrite raise_for_status_error.
Qed.

Lemma get_video_transcript_failure_witness :
  get_video_transcript w_timeout (lit "dQw4w9WgXcQ") (lit "search-key") st0
  = (Ok PyNone,
     emits st0 [ EvGet SEARCH_URL
                   (transcript_query (lit "dQw4w9WgXcQ") (lit "search-key"));
                 EvPrint (lit "Error fetching transcript: Read timed out.") ])
  ∧ get_video_transcript w_404 (lit "dQw4w9WgXcQ") (lit "search-key") st0
    = (Ok PyNone,
       emits st0 [ EvGet SEARCH_URL
                     (transcript_query (lit "dQw4w9WgXcQ") (lit "search-key"));
                   EvPrint (lit "Error fetching transcript: 404 Client Error: Not Found for url: "
                            ++ sample_url) ]).
Proof.
  split.
  - apply (proj1 (get_video_transcript_failure w_timeout (lit "dQw4w9WgXcQ")
                    (lit "search-key") st0)
             (Exc ReadTimeout (lit "Read timed out."))).
    + reflexivity.
    + right. reflexivity.
  - destruct (proj2 (get_video_transcript_failure w_404 (lit "dQw4w9WgXcQ")
                       (lit "search-key") st0)
                {| status_code := 404; reason := lit "Not Found";
                   url := sample_url;
                   json := Ok (PyDict {[ lit "error" :=
                                           PyStr (lit "Video not found") ]}) |}
                eq_refl ltac:(cbn; lia))
      as (e & He & _ & Hrun).
    injection He as <-. exact Hrun.
Defined.

(** C7 as stated fails: a status outside 200-299 that is not an error status
    (here 300) passes [raise_for_status]; the body is returned, no error is
    printed, and the result is not [None]. *)
Lemma get_video_transcript_status_300 :
  ¬ (200 ≤ 300 < 300)
  ∧ http_get w_300 SEARCH_URL
      (transcript_query (lit "dQw4w9WgXcQ") (lit "search-key"))
    = Ok {| status_code := 300; reason := lit "Multiple Choices";
            url := sample_url; json := Ok hello_world |}
  ∧ get_video_transcript w_300 (lit "dQw4w9WgXcQ") (lit "search-key") st0
    = (Ok hello_world,
       emits st0 [ EvGet SEARCH_URL
                     (transcript_query (lit "dQw4w9WgXcQ") (lit "search-key")) ])
  ∧ hello_world ≠ PyNone.
Proof.
  split; [lia|]. split; [reflexivity|]. split; [reflexivity|]. discriminate.
Qed.




(** C3: when [get_video_transcript] brings no data ([None] after a caught
    failure, or any empty value), [main] prints the failure line and ends,
    and no chat request is sent; when the fetch raises past its handler,
    [main] ends with that exception and again no chat request is sent. *)
Theorem main_no_data_never_summarizes
    w st video_id searchapi_key openai_key st1 r st2 :
  resolve_inputs w st = (Ok (video_id, searchapi_key, openai_key), st1) →
  get_video_transcript w video_id searchapi_key
    (emits st1 [fetching_line video_id]) = (r, st2) →
  (∀ v, r = Ok v → truthy v = false) →
  chat_calls (trace (main w st).2) = chat_calls (trace st)
  ∧ (∀ v, r = Ok v →
       main w st
       = (Ok tt,
          emits st2 [EvPrint (lit "Failed to retrieve transcript. Please check the video ID and API key.")]))
  ∧ (∀ e, r = Raise e → main w st = (Raise e, st2)).
Proof.
  intros Hres Hget Hfalsy.
  rewrite (main_resolved _ _ _ _ _ _ Hres), fetch_and_summarize_cases, Hget.
  apply resolve_inputs_chat_calls in Hres.
  apply get_video_transcript_events in Hget as (evs & -> & Hevs).
  destruct r as [v|e].
  - rewrite (Hfalsy v eq_refl). split; [|split; [done|by intros ? [=]]].
    cbn [snd]. rewrite !chat_calls_emits, Hevs, Hres. cbn.
    by rewrite !app_nil_r.
  - split; [|split; [by intros ? [=]|by intros ? [= <-]]].
    cbn [snd]. rewrite !chat_calls_emits, Hevs, Hres. cbn.
    by rewrite !app_nil_r.
Qed.

Lemma main_no_data_never_summarizes_witness :
  main w_404 st0
  = (Ok tt,
     emits st0
       [ fetching_line (lit "dQw4w9WgXcQ");
         EvGet SEARCH_URL (transcript_query (lit "dQw4w9WgXcQ") (lit "search-key"));
         EvPrint (lit "Error fetching transcript: 404 Client Error: Not Found for url: "
                  ++ sample_url);
         EvPrint (lit "Failed to retrieve transcript. Please check the video ID and API key.") ])
  ∧ chat_calls (trace (main w_404 st0).2) = [].
Proof.
  destruct (main_no_data_never_summarizes w_404 st0
              (lit "dQw4w9WgXcQ") (lit "search-key") (lit "openai-key") st0
              (Ok PyNone)
              (emits st0
                 [ fetching_line (lit "dQw4w9WgXcQ");
                   EvGet SEARCH_URL
                     (transcript_query (lit "dQw4w9WgXcQ") (lit "search-key"));
                   EvPrint (lit "Error fetching transcript: 404 Client Error: Not Found for url: "
                            ++ sample_url) ])
              eq_refl eq_refl)
    as (Hcalls & Hrun & _).
  - intros v [= <-]. reflexivity.
  - split; [exact (Hrun PyNone eq_refl)|exact Hcalls].
Defined.

(** With data fetched and a transcript assembled, the rest of [main] is the
    summarizer followed by the summary block; with the client constructed,
    the chat request for the transcript is sent. *)
Lemma main_summarizes w st video_id searchapi_key openai_key st1
    transcript_data st2 full_transcript :
  resolve_inputs w st = (Ok (video_id, searchapi_key, openai_key), st1) →
  get_video_transcript w video_id searchapi_key
    (emits st1 [fetching_line video_id]) = (Ok transcript_data, st2) →
  truthy transcript_data = true →
  process_transcript transcript_data = Ok full_transcript →
  main w st
  = match summarize_with_gpt4 w full_transcript openai_key
            (emits st2 [ EvPrint (lit "Transcript fetched successfully!");
                         EvPrint (lit "Generating summary...") ]) with
    | (Raise e, st3) => (Raise e, st3)
    | (Ok summary, st3) =>
        (Ok tt, emits st3 (summary_block (str_of_summary summary)))
    end
  ∧ (new_client w openai_key = Ok tt →
     chat_calls (trace (main w st).2)
     = chat_calls (trace st) ++ [(openai_key, summary_request full_transcript)]).
Proof.
  intros Hres Hget Hdata Htext.
  rewrite (main_resolved _ _ _ _ _ _ Hres), fetch_and_summarize_cases, Hget,
    Hdata, Htext. cbn zeta. split; [reflexivity|]. intros Hclient.
  apply resolve_inputs_chat_calls in Hres.
  apply get_video_transcript_events in Hget as (evs & -> & Hevs).
  destruct (summarize_with_gpt4 _ _ _ _) as [[summary|e] st3] eqn:Hsum;
    apply (summarize_with_gpt4_events _ _ _ _ _ _ Hclient) in Hsum
      as (evs' & -> & Hevs');
    cbn [snd]; rewrite !chat_calls_emits, Hevs, Hevs', Hres; cbn;
    by rewrite ?app_nil_r.
Qed.

(** C4, as amended: a fetched object that is not empty and has no
    ["transcripts"] key is assembled into "No transcript available.", and
    [main] goes on to the summarizer with that text: the run ends as the
    summarizer on that text and the summary block end, and the chat request
    for it is sent when the client can be constructed from the key. *)
Theorem main_missing_transcripts_summarizes_placeholder
    (w : world) (st : state) (video_id searchapi_key openai_key : list N)
    (st1 st2 : state) (d : gmap (list N) pyval) :
  resolve_inputs w st = (Ok (video_id, searchapi_key, openai_key), st1) →
  get_video_transcript w video_id searchapi_key
    (emits st1 [fetching_line video_id]) = (Ok (PyDict d), st2) →
  d ≠ ∅ →
  d !! lit "transcripts" = None →
  process_transcript (PyDict d) = Ok (lit "No transcript available.")
  ∧ (new_client w openai_key = Ok tt →
     chat_calls (trace (main w st).2)
     = chat_calls (trace st)
       ++ [(openai_key, summary_request (lit "No transcript available."))])
  ∧ main w st
    = match summarize_with_gpt4 w (lit "No transcript available.") openai_key
              (emits st2 [ EvPrint (lit "Transcript fetched successfully!");
                           EvPrint (lit "Generating summary...") ]) with
      | (Raise e, st3) => (Raise e, st3)
      | (Ok summary, st3) =>
          (Ok tt, emits st3 (summary_block (str_of_summary summary)))
      end.
Proof.
  intros Hres Hget Hne Hk.
  assert (Htext : process_transcript (PyDict d) = Ok (lit "No transcript available.")).
  { by apply process_transcript_without_key. }
  assert (Hdata : truthy (PyDict d) = true).
  { cbn. by rewrite bool_decide_eq_false_2. }
  destruct (main_summarizes _ _ _ _ _ _ _ _ _ Hres Hget Hdata Htext) as [Hrun Hcalls].
  auto.
Qed.

Lemma main_missing_transcripts_witness :
  main w_no_transcripts st0
  = (Ok tt,
     emits st0
       ([ fetching_line (lit "dQw4w9WgXcQ");
          EvGet SEARCH_URL (transcript_query (lit "dQw4w9WgXcQ") (lit "search-key"));
          EvPrint (lit "Transcript fetched successfully!");
          EvPrint (lit "Generating summary...");
          EvChat (lit "openai-key") (summary_request (lit "No transcript available.")) ]
        ++ summary_block (lit "- a greeting")))
  ∧ chat_calls (trace (main w_no_transcripts st0).2)
    = [(lit "openai-key", summary_request (lit "No transcript available."))].
Proof.
  destruct (main_missing_transcripts_summarizes_placeholder w_no_transcripts st0
              (lit "dQw4w9WgXcQ") (lit "search-key") (lit "openai-key") st0
              (emits st0
                 [ fetching_line (lit "dQw4w9WgXcQ");
                   EvGet SEARCH_URL
                     (transcript_query (lit "dQw4w9WgXcQ") (lit "search-key")) ])
              {[ lit "error" := PyStr (lit "Video not found") ]}
              eq_refl eq_refl)
    as (_ & Hcalls & Hrun).
  - intros H. apply (f_equal (fun m => m !! lit "error")) in H. discriminate H.
  - reflexivity.
  - split; [exact Hrun|exact (Hcalls eq_refl)].
Defined.

(** C4 as stated fails on two fetched objects for which the fetch did not
    fail: the empty object, which lacks the transcript field, makes [main]
    print the failure line and end without a chat request; an object whose
    transcript field is [null] makes [process_transcript] raise [TypeError],
    and [main] ends with it, again without a chat request. *)
Lemma main_missing_or_malformed_not_summarized :
  get_video_transcript w_empty_object (lit "dQw4w9WgXcQ") (lit "search-key")
    (emits st0 [fetching_line (lit "dQw4w9WgXcQ")])
  = (Ok (PyDict ∅),
     emits st0 [ fetching_line (lit "dQw4w9WgXcQ");
                 EvGet SEARCH_URL
                   (transcript_query (lit "dQw4w9WgXcQ") (lit "search-key")) ])
  ∧ main w_empty_object st0
    = (Ok tt,
       emits st0
         [ fetching_line (lit "dQw4w9WgXcQ");
           EvGet SEARCH_URL
             (transcript_query (lit "dQw4w9WgXcQ") (lit "search-key"));
           EvPrint (lit "Failed to retrieve transcript. Please check the video ID and API key.") ])
  ∧ chat_calls (trace (main w_empty_object st0).2) = []
  ∧ process_transcript (PyDict {[ lit "transcripts" := PyNone ]})
    = Raise (Exc TypeError (lit "'NoneType' object is not iterable"))
  ∧ main w_null_transcripts st0
    = (Raise (Exc TypeError (lit "'NoneType' object is not iterable")),
       emits st0
         [ fetching_line (lit "dQw4w9WgXcQ");
           EvGet SEARCH_URL
             (transcript_query (lit "dQw4w9WgXcQ") (lit "search-key"));
           EvPrint (lit "Transcript fetched successfully!") ])
  ∧ chat_calls (trace (main w_null_transcripts st0).2) = [].
Proof. repeat split. Qed.

(** The handler of [summarize_with_gpt4] catches what its [try] block
    raises, when that is an [Exception]. *)
Lemma summarize_with_gpt4_caught w transcript_text openai_api_key e st :
  summarization_raises w transcript_text openai_api_key e →
  isinstance e Exception = true →
  summarize_with_gpt4 w transcript_text openai_api_key st
  = (Ok (Some (lit "Failed to generate summary.")),
     emits st [ EvChat openai_api_key (summary_request transcript_text);
                EvPrint (lit "Error generating summary: " ++ exc_msg e) ]).
Proof.
  intros [Hclient [Hcall | (completion & Hcall & Hnone & ->)]] Hcls;
    rewrite summarize_with_gpt4_cases, Hclient, Hcall; cbn zeta.
  - by rewrite Hcls.
  - by rewrite Hnone.
Qed.

(** C5: an error raised inside the [try] block of [summarize_with_gpt4], that
    is by the call made on the constructed client or by reading its first
    choice, is caught and printed, and the function returns "Failed to
    generate summary." instead of raising; [main] then prints that string
    between the two delimiter lines and ends normally. *)
Theorem summarizer_error_becomes_failed_summary
    (w : world) (transcript_text openai_api_key : list N) (e : exc) :
  summarization_raises w transcript_text openai_api_key e →
  isinstance e Exception = true →
  (∀ st,
      summarize_with_gpt4 w transcript_text openai_api_key st
      = (Ok (Some (lit "Failed to generate summary.")),
         emits st [ EvChat openai_api_key (summary_request transcript_text);
                    EvPrint (lit "Error generating summary: " ++ exc_msg e) ]))
  ∧ (∀ (st st1 st2 : state) (video_id searchapi_key : list N) transcript_data,
        resolve_inputs w st = (Ok (video_id, searchapi_key, openai_api_key), st1) →
        get_video_transcript w video_id searchapi_key
          (emits st1 [fetching_line video_id]) = (Ok transcript_data, st2) →
        truthy transcript_data = true →
        process_transcript transcript_data = Ok transcript_text →
        main w st
        = (Ok tt,
           emits st2
             [ EvPrint (lit "Transcript fetched successfully!");
               EvPrint (lit "Generating summary...");
               EvChat openai_api_key (summary_request transcript_text);
               EvPrint (lit "Error generating summary: " ++ exc_msg e);
               EvPrint ([LF] ++ lit "--- VIDEO SUMMARY ---" ++ [LF]);
               EvPrint (lit "Failed to generate summary.");
               EvPrint ([LF] ++ lit "--------------------" ++ [LF]) ])).
Proof.
  intros Hraise Hcls. split.
  - intros st. by apply summarize_with_gpt4_caught.
  - intros st st1 st2 video_id searchapi_key v Hres Hget Hdata Htext.
    destruct (main_summarizes _ _ _ _ _ _ _ _ _ Hres Hget Hdata Htext) as [-> _].
    rewrite (summarize_with_gpt4_caught _ _ _ _ _ Hraise Hcls).
    by rewrite !emits_emits.
Qed.

Lemma summarizer_error_witness :
  summarize_with_gpt4 w_chat_down (lit "Hello world") (lit "openai-key") st0
  = (Ok (Some (lit "Failed to generate summary.")),
     emits st0 [ EvChat (lit "openai-key") (summary_request (lit "Hello world"));
                 EvPrint (lit "Error generating summary: Connection error.") ])
  ∧ main w_chat_down st0
    = (Ok tt,
       emits st0
         [ fetching_line (lit "dQw4w9WgXcQ");
           EvGet SEARCH_URL (transcript_query (lit "dQw4w9WgXcQ") (lit "search-key"));
           EvPrint (lit "Transcript fetched successfully!");
           EvPrint (lit "Generating summary...");
           EvChat (lit "openai-key") (summary_request (lit "Hello world"));
           EvPrint (lit "Error generating summary: Connection error.");
           EvPrint ([LF] ++ lit "--- VIDEO SUMMARY ---" ++ [LF]);
           EvPrint (lit "Failed to generate summary.");
           EvPrint ([LF] ++ lit "--------------------" ++ [LF]) ]).
Proof.
  destruct (summarizer_error_becomes_failed_summary w_chat_down
              (lit "Hello world") (lit "openai-key")
              (Exc APIConnectionError (lit "Connection error.")))
    as [Hsum Hmain].
  - split; [reflexivity|]. left. reflexivity.
  - reflexivity.
  - split; [exact (Hsum st0)|].
    exact (Hmain st0 st0
             (emits st0
                [ fetching_line (lit "dQw4w9WgXcQ");
                  EvGet SEARCH_URL
                    (transcript_query (lit "dQw4w9WgXcQ") (lit "search-key")) ])
             (lit "dQw4w9WgXcQ") (lit "search-key") hello_world
             eq_refl eq_refl eq_refl eq_refl).
Defined.

(** C10: an object whose ["transcripts"] is the empty list is assembled
    into the empty string, which is not the sentinel, and [main] goes on to
    the summarizer with the empty transcript: the run ends as the summarizer
    on the empty string and the summary block end, and the chat request for
    the empty transcript is sent when the client can be constructed. *)
Theorem empty_segment_list_gives_empty_transcript (d : gmap (list N) pyval) :
  d !! lit "transcripts" = Some (PyList []) →
  process_transcript (PyDict d) = Ok []
  ∧ process_transcript (PyDict d) ≠ Ok (lit "No transcript available.")
  ∧ (∀ (w : world) (st st1 st2 : state) (video_id searchapi_key openai_key : list N),
        resolve_inputs w st = (Ok (video_id, searchapi_key, openai_key), st1) →
        get_video_transcript w video_id searchapi_key
          (emits st1 [fetching_line video_id]) = (Ok (PyDict d), st2) →
        (new_client w openai_key = Ok tt →
         chat_calls (trace (main w st).2)
         = chat_calls (trace st) ++ [(openai_key, summary_request [])])
        ∧ main w st
          = match summarize_with_gpt4 w [] openai_key
                    (emits st2 [ EvPrint (lit "Transcript fetched successfully!");
                                 EvPrint (lit "Generating summary...") ]) with
            | (Raise e, st3) => (Raise e, st3)
            | (Ok summary, st3) =>
                (Ok tt, emits st3 (summary_block (str_of_summary summary)))
            end).
Proof.
  intros Hk.
  assert (Htext : process_transcript (PyDict d) = Ok []).
  { by rewrite (process_transcript_list _ _ Hk). }
  split; [done|]. split; [by rewrite Htext|].
  intros w st st1 st2 video_id searchapi_key openai_key Hres Hget.
  destruct (main_summarizes _ _ _ _ _ _ _ _ _ Hres Hget
              (truthy_dict_lookup _ _ _ Hk) Htext) as [Hrun Hcalls].
  auto.
Qed.

Lemma empty_segment_list_witness :
  process_transcript (PyDict {[ lit "transcripts" := PyList [] ]}) = Ok []
  ∧ main w_empty_list st0
    = (Ok tt,
       emits st0
         ([ fetching_line (lit "dQw4w9WgXcQ");
            EvGet SEARCH_URL (transcript_query (lit "dQw4w9WgXcQ") (lit "search-key"));
            EvPrint (lit "Transcript fetched successfully!");
            EvPrint (lit "Generating summary...");
            EvChat (lit "openai-key") (summary_request []) ]
          ++ summary_block (lit "- a greeting"))).
Proof.
  destruct (empty_segment_list_gives_empty_transcript
              {[ lit "transcripts" := PyList [] ]})
    as (Htext & _ & Hmain); [reflexivity|].
  split; [exact Htext|].
  exact (proj2 (Hmain w_empty_list st0 st0
                  (emits st0
                     [ fetching_line (lit "dQw4w9WgXcQ");
                       EvGet SEARCH_URL
                         (transcript_query (lit "dQw4w9WgXcQ") (lit "search-key")) ])
                  (lit "dQw4w9WgXcQ") (lit "search-key") (lit "openai-key")
                  eq_refl eq_refl)).
Defined.

(** One input: the command line value when given, else the environment
    value when given, else a line read after the prompt. *)
Lemma or_input_precedence cli env prompt st x st' :
  or_input (py_or cli env) prompt st = (Ok x, st') →
  (given cli = true → cli = Some x)
  ∧ (given cli = false → given env = true → env = Some x)
  ∧ (given cli = false → given env = false → stdin st = x :: stdin st')
  ∧ trace st' = trace st
                ++ (if given cli || given env then [] else [EvPrompt prompt]).
Proof.
  intros Hrun. apply or_input_Ok in Hrun.
  rewrite given_py_or in Hrun.
  destruct (given cli) eqn:Hc.
  - rewrite py_or_given in Hrun by done. cbn in *.
    destruct Hrun as [(_ & -> & ->) | (? & _)]; [|done].
    rewrite app_nil_r. repeat split; done.
  - rewrite py_or_not_given in Hrun by done. cbn in *.
    destruct (given env) eqn:He.
    + destruct Hrun as [(_ & -> & ->) | (? & _)]; [|done].
      rewrite app_nil_r. repeat split; done.
    + destruct Hrun as [(? & _) | (_ & Hin & Htr)]; [done|].
      repeat split; done.
Qed.

Lemma In_prompt_if (b : bool) p q :
  In (EvPrompt p) (if b then [] else [EvPrompt q]) ↔ b = false ∧ q = p.
Proof.
  destruct b; cbn; [intuition congruence|].
  split; [intros [[= ->]|[]]; done | intros [_ ->]; by left].
Qed.

Lemma prompt_of_inj i j : prompt_of i = prompt_of j → i = j.
Proof. destruct i, j; intros H; try reflexivity; vm_compute in H; discriminate. Qed.

(** C6, as amended: for each of the three inputs, a command line value
    that is given and not empty is the one used; otherwise an environment
    value that is given and not empty is used; the prompt for the input is
    written exactly when neither is given (unset or empty), and the line
    read is then the value. *)
Theorem resolve_inputs_precedence
    (w : world) (st st' : state) (inputs : list N * list N * list N)
    (i : logical_input) :
  resolve_inputs w st = (Ok inputs, st') →
  (given (cli_value w i) = true → cli_value w i = Some (resolved i inputs))
  ∧ (given (cli_value w i) = false → given (env_value w i) = true →
     env_value w i = Some (resolved i inputs))
  ∧ ∃ evs,
      trace st' = trace st ++ evs
      ∧ (In (EvPrompt (prompt_of i)) evs
         ↔ given (cli_value w i) = false ∧ given (env_value w i) = false).
Proof.
  destruct inputs as [[a b] c]. intros Hres.
  apply resolve_inputs_Ok in Hres as (st1 & st2 & H1 & H2 & H3).
  apply or_input_precedence in H1 as (Hc1 & He1 & _ & Ht1).
  apply or_input_precedence in H2 as (Hc2 & He2 & _ & Ht2).
  apply or_input_precedence in H3 as (Hc3 & He3 & _ & Ht3).
  split; [by destruct i|]. split; [by destruct i|].
  eexists. split.
  { rewrite Ht3, Ht2, Ht1, <- !app_assoc. reflexivity. }
  rewrite !in_app_iff, !In_prompt_if, !orb_false_iff.
  split.
  - intros [[H E] | [[H E] | [H E]]]; apply prompt_of_inj in E; by subst i.
  - intros [Hc He]. destruct i; [left | right; left | right; right]; done.
Qed.

Lemma resolve_inputs_precedence_witness :
  resolve_inputs w_cli_and_env
    {| stdin := [lit "typed-search-key"; lit "typed-openai-key"]; trace := [] |}
  = (Ok (lit "from-cli", lit "typed-search-key", lit "typed-openai-key"),
     {| stdin := [];
        trace := [ EvPrompt (lit "Enter SearchAPI.io API key: ");
                   EvPrompt (lit "Enter OpenAI API key: ") ] |})
  ∧ cli_value w_cli_and_env VideoId = Some (lit "from-cli")
  ∧ env_value w_cli_and_env VideoId = Some (lit "from-env").
Proof.
  split; [reflexivity|]. split; [|reflexivity].
  exact (proj1 (resolve_inputs_precedence w_cli_and_env
                  {| stdin := [lit "typed-search-key"; lit "typed-openai-key"];
                     trace := [] |}
                  {| stdin := [];
                     trace := [ EvPrompt (lit "Enter SearchAPI.io API key: ");
                                EvPrompt (lit "Enter OpenAI API key: ") ] |}
                  (lit "from-cli", lit "typed-search-key", lit "typed-openai-key")
                  VideoId eq_refl) eq_refl).
Defined.

(** C6 as stated fails when a value is present but empty: with
    [--video_id ""] on the command line and a video id in the environment,
    the environment value is used and not the command line value; with the
    search key set to the empty string in the environment and absent from
    the command line, the prompt is written although one of the two is set. *)
Lemma resolve_inputs_empty_cli_value :
  cli_value w_empty_cli VideoId = Some []
  ∧ env_value w_empty_cli VideoId = Some (lit "from-env")
  ∧ cli_value w_empty_cli SearchapiKey = None
  ∧ env_value w_empty_cli SearchapiKey = Some []
  ∧ resolve_inputs w_empty_cli {| stdin := [lit "typed-search-key"]; trace := [] |}
    = (Ok (lit "from-env", lit "typed-search-key", lit "openai-key"),
       {| stdin := []; trace := [EvPrompt (lit "Enter SearchAPI.io API key: ")] |})
  ∧ lit "from-env" ≠ [].
Proof. repeat split. discriminate. Qed.

(** * Beyond the claims: process_transcript on every kind of input *)

(** What a normal return of [process_transcript] can be: the sentinel, or
    the stripped result of the loop over the items of the object's
    ["transcripts"]. *)
Lemma process_transcript_Ok_inv x s :
  process_transcript x = Ok s →
  s = NO_TRANSCRIPT
  ∨ ∃ (d : gmap (list N) pyval) v items t,
      x = PyDict d ∧ d !! lit "transcripts" = Some v
      ∧ py_iter v = Ok items ∧ join_segments items [] = Ok t ∧ s = strip t.
Proof.
  unfold process_transcript. intros H.
  destruct (truthy x); cbn [negb] in H; [|left; by injection H].
  destruct x as [| | | |str|l|d]; cbn in H; try discriminate.
  - destruct (str_contains _ str); cbn in H; [discriminate|left; by injection H].
  - destruct (existsb _ l); cbn in H; [discriminate|left; by injection H].
  - destruct (d !! lit "transcripts") as [v|] eqn:Hd.
    2:{ rewrite bool_decide_eq_false_2 in H by (by intros [? ?]).
        left. by injection H. }
    rewrite bool_decide_eq_true_2 in H by eauto. cbn in H.
    destruct (py_iter v) as [items|] eqn:Hit; cbn in H; [|discriminate].
    destruct (join_segments items []) as [t|] eqn:Hj; cbn in H; [|discriminate].
    right. exists d, v, items, t. injection H as <-. auto.
Qed.

(** X1: every falsy input ([None], [False], zero, the empty string, list and
    dict) gives the sentinel; and an input that is not a dict never gives a
    transcript: the result is the sentinel or a [TypeError]. *)
Theorem process_transcript_falsy_or_not_dict (x : pyval) :
  (truthy x = false → process_transcript x = Ok (lit "No transcript available."))
  ∧ ((∀ d, x ≠ PyDict d) →
     (∀ s, process_transcript x = Ok s → s = lit "No transcript available.")
     ∧ (∀ e, process_transcript x = Raise e → exc_cls e = TypeError)).
Proof.
  split.
  - intros Hx. unfold process_transcript. by rewrite Hx.
  - intros Hnd. split.
    + intros s Hs.
      apply process_transcript_Ok_inv in Hs as [-> | (d & ? & ? & ? & -> & _)];
        [reflexivity|]. by destruct (Hnd d).
    + intros e. unfold process_transcript.
      destruct (truthy x); cbn [negb]; [|discriminate].
      destruct x as [| | | |str|l|d]; cbn; try (by intros [= <-]).
      * destruct (str_contains _ str); cbn; [by intros [= <-]|discriminate].
      * destruct (existsb _ l); cbn; [by intros [= <-]|discriminate].
      * by destruct (Hnd d).
Qed.

Lemma process_transcript_falsy_or_not_dict_witness :
  process_transcript (PyList []) = Ok (lit "No transcript available.")
  ∧ process_transcript (PyInt 0) = Ok (lit "No transcript available.")
  ∧ (∀ s, process_transcript (PyList [PyStr (lit "no transcripts here")]) = Ok s →
       s = lit "No transcript available.")
  ∧ (∀ e, process_transcript (PyInt 42) = Raise e → exc_cls e = TypeError).
Proof.
  split; [|split; [|split]].
  - by apply (proj1 (process_transcript_falsy_or_not_dict (PyList []))).
  - by apply (proj1 (process_transcript_falsy_or_not_dict (PyInt 0))).
  - apply (proj2 (process_transcript_falsy_or_not_dict
                    (PyList [PyStr (lit "no transcripts here")]))).
    discriminate.
  - apply (proj2 (process_transcript_falsy_or_not_dict (PyInt 42))).
    discriminate.
Defined.

(** X2: whatever [process_transcript] returns neither starts nor ends with
    whitespace. *)
Theorem process_transcript_result_trimmed (x : pyval) (s : list N) :
  process_transcript x = Ok s →
  (∀ c, head s = Some c → isspace c = false)
  ∧ (∀ c, last s = Some c → isspace c = false).
Proof.
  intros Hs.
  apply process_transcript_Ok_inv in Hs as [-> | (_ & _ & _ & t & _ & _ & _ & _ & ->)].
  - split; intros c [= <-]; reflexivity.
  - destruct (strip_trimmed t) as (_ & Hhead & Hlast). auto.
Qed.

Lemma process_transcript_result_trimmed_witness :
  (∀ c, head (lit "Hello") = Some c → isspace c = false)
  ∧ (∀ c, last (lit "Hello") = Some c → isspace c = false).
Proof.
  apply (process_transcript_result_trimmed
           (PyDict {[ lit "transcripts" :=
                        PyList [PyDict {[ lit "text" := PyStr (lit "  Hello ") ]}] ]})).
  reflexivity.
Defined.

Lemma lstrip_solid s : (∀ c, head s = Some c → isspace c = false) → lstrip s = s.
Proof.
  destruct s as [|c s]; [done|]. intros H. cbn. by rewrite (H c eq_refl).
Qed.

Lemma lstrip_spaces_app ws s :
  Forall (fun c => isspace c = true) ws → lstrip (ws ++ s) = lstrip s.
Proof. induction 1 as [|c ws Hc _ IH]; [done|]. cbn. by rewrite Hc. Qed.

(** Whitespace after a string that starts and ends with other characters
    is all that [strip] removes. *)
Lemma strip_solid_app s ws :
  starts_solid s → ends_solid s →
  Forall (fun c => isspace c = true) ws →
  strip (s ++ ws) = s.
Proof.
  intros (c & Hc & Hsp) (c' & Hc' & Hsp') Hws. unfold strip, rstrip.
  assert (lstrip (s ++ ws) = s ++ ws) as ->.
  { apply lstrip_solid. intros c0 H0.
    destruct s as [|a s]; [done|]. cbn in *. congruence. }
  rewrite rev_app_distr, lstrip_spaces_app.
  2:{ rewrite rev_is_reverse. by apply Forall_reverse. }
  rewrite lstrip_solid; [apply rev_involutive|].
  intros c'' H. rewrite rev_is_reverse, head_reverse in H. congruence.
Qed.

Lemma spaced_join_spaces t texts :
  spaced (t :: texts) = join_spaces (t :: texts) ++ lit " ".
Proof.
  revert t. induction texts as [|t' texts IH]; intros t.
  - unfold spaced. cbn. by rewrite app_nil_r.
  - change (spaced (t :: t' :: texts)) with ((t ++ lit " ") ++ spaced (t' :: texts)).
    rewrite IH. cbn [join_spaces]. by rewrite <- !app_assoc.
Qed.

Lemma head_join_spaces t texts c :
  head t = Some c → head (join_spaces (t :: texts)) = Some c.
Proof. destruct t, texts; cbn; congruence. Qed.

Lemma last_join_spaces texts t c :
  last texts = Some t → last t = Some c → last (join_spaces texts) = Some c.
Proof.
  induction texts as [|t' [|t'' texts] IH]; intros Ht Hc; [done| |].
  - cbn in *. congruence.
  - change (join_spaces (t' :: t'' :: texts))
      with (t' ++ lit " " ++ join_spaces (t'' :: texts)).
    rewrite !last_app. rewrite IH; done.
Qed.

(** X3: when the first text starts and the last text ends with a character that
    is not whitespace, the transcript is the texts joined by single spaces,
    [" ".join(texts)]. *)
Theorem process_transcript_is_join (d : gmap (list N) pyval) segs texts :
  d !! lit "transcripts" = Some (PyList segs) →
  Forall2 segment_with_text segs texts →
  (∀ t, head texts = Some t → starts_solid t) →
  (∀ t, last texts = Some t → ends_solid t) →
  process_transcript (PyDict d) = Ok (join_spaces texts).
Proof.
  intros Hk Hsegs Hfirst Hlast.
  rewrite (process_transcript_list _ _ Hk), (join_segments_spaced _ _ [] Hsegs).
  cbn. f_equal. destruct texts as [|t texts]; [reflexivity|].
  rewrite spaced_join_spaces. apply strip_solid_app.
  - destruct (Hfirst t eq_refl) as (c & Hc & Hsp). exists c.
    split; [by apply head_join_spaces|done].
  - destruct (last (t :: texts)) as [t'|] eqn:Ht'.
    2:{ by apply last_None in Ht'. }
    destruct (Hlast t' eq_refl) as (c & Hc & Hsp). exists c.
    split; [by eapply last_join_spaces|done].
  - by repeat constructor.
Qed.

Lemma process_transcript_is_join_witness :
  process_transcript
    (PyDict {[ lit "transcripts" :=
                 PyList [ PyDict {[ lit "text" := PyStr (lit "never gonna") ]};
                          PyDict {[ lit "text" := PyStr [] ]};
                          PyDict {[ lit "text" := PyStr (lit "give you up") ]} ] ]})
  = Ok (lit "never gonna  give you up").
Proof.
  change (lit "never gonna  give you up")
    with (join_spaces [lit "never gonna"; []; lit "give you up"]).
  eapply process_transcript_is_join.
  - reflexivity.
  - constructor; [|constructor; [|constructor; [|constructor]]];
      eexists; (split; [reflexivity|]); reflexivity.
  - intros t [= <-]. eexists. split; reflexivity.
  - intros t [= <-]. eexists. split; reflexivity.
Defined.

Lemma join_segments_same_text segs segs' acc :
  Forall2 same_text segs segs' →
  join_segments segs acc = join_segments segs' acc.
Proof.
  intros H. revert acc.
  induction H as [|seg seg' segs segs' (d & d' & -> & -> & Ht) _ IH]; intros acc;
    [done|].
  cbn [join_segments getitem]. rewrite Ht.
  destruct (d' !! lit "text") as [v|]; cbn; [|done].
  destruct (add_str v (lit " ")); cbn; [apply IH|done].
Qed.

(** X4: only the entry ["transcripts"] of the response and the entry ["text"]
    of each segment are read: two responses that agree on them give the
    same result, whatever else they hold. *)
Theorem process_transcript_reads_only_text
    (d d' : gmap (list N) pyval) (segs segs' : list pyval) :
  d !! lit "transcripts" = Some (PyList segs) →
  d' !! lit "transcripts" = Some (PyList segs') →
  Forall2 same_text segs segs' →
  process_transcript (PyDict d) = process_transcript (PyDict d').
Proof.
  intros Hd Hd' Hsame.
  rewrite (process_transcript_list _ _ Hd), (process_transcript_list _ _ Hd').
  by rewrite (join_segments_same_text _ _ [] Hsame).
Qed.

Lemma process_transcript_reads_only_text_witness :
  process_transcript
    (PyDict {[ lit "transcripts" :=
                 PyList [ PyDict {[ lit "text" := PyStr (lit "Hello");
                                    lit "start" := PyInt 0;
                                    lit "duration" := PyInt 4 ]} ];
               lit "available_languages" := PyList [PyStr (lit "en")] ]})
  = process_transcript
      (PyDict {[ lit "transcripts" :=
                   PyList [ PyDict {[ lit "text" := PyStr (lit "Hello") ]} ] ]}).
Proof.
  eapply process_transcript_reads_only_text.
  - reflexivity.
  - reflexivity.
  - constructor; [|constructor]. do 2 eexists.
    split; [reflexivity|]. split; reflexivity.
Defined.

(** Looking up ["text"] in a string, which is what the items of a dict or
    of a string are, raises [TypeError]. *)
Lemma join_segments_str_items (strs : list (list N)) acc :
  strs ≠ [] →
  ∃ msg, join_segments (List.map PyStr strs) acc = Raise (Exc TypeError msg).
Proof. destruct strs; [done|]. intros _. cbn. eauto. Qed.

(** X5: a ["transcripts"] entry that is not a list: the empty dict and the empty
    string are iterated zero times and give the empty transcript; any other
    value gives a [TypeError]. *)
Theorem process_transcript_entry_not_a_list (d : gmap (list N) pyval) (v : pyval) :
  d !! lit "transcripts" = Some v →
  (∀ l, v ≠ PyList l) →
  (v = PyDict ∅ ∨ v = PyStr [] → process_transcript (PyDict d) = Ok [])
  ∧ (v ≠ PyDict ∅ → v ≠ PyStr [] →
     ∃ msg, process_transcript (PyDict d) = Raise (Exc TypeError msg)).
Proof.
  intros Hk Hnl. unfold process_transcript.
  rewrite (truthy_dict_lookup _ _ _ Hk). cbn [negb py_in getitem].
  rewrite Hk, bool_decide_eq_true_2 by eauto. cbn.
  split.
  - intros [-> | ->]; cbn; [|reflexivity]. by rewrite map_to_list_empty.
  - intros Hd Hs. destruct v as [| | | |str|l|d']; cbn; eauto.
    + destruct (join_segments_str_items (List.map (fun c => [c]) str) [])
        as [msg Hmsg]; [by destruct str|].
      rewrite List.map_map in Hmsg. rewrite Hmsg. cbn. eauto.
    + by destruct (Hnl l).
    + destruct (join_segments_str_items (List.map fst (map_to_list d')) [])
        as [msg Hmsg].
      { intros Hnil. apply Hd. f_equal. apply map_to_list_empty_iff.
        by destruct (map_to_list d'). }
      rewrite List.map_map in Hmsg. rewrite Hmsg. cbn. eauto.
Qed.

Lemma process_transcript_entry_not_a_list_witness :
  process_transcript (PyDict {[ lit "transcripts" := PyDict ∅ ]}) = Ok []
  ∧ (∃ msg, process_transcript (PyDict {[ lit "transcripts" := PyStr (lit "Hello") ]})
            = Raise (Exc TypeError msg))
  ∧ (∃ msg, process_transcript (PyDict {[ lit "transcripts" := PyNone ]})
            = Raise (Exc TypeError msg)).
Proof.
  split; [|split].
  - destruct (process_transcript_entry_not_a_list
                {[ lit "transcripts" := PyDict ∅ ]} (PyDict ∅)) as [Hempty _].
    + reflexivity.
    + discriminate.
    + apply Hempty. by left.
  - destruct (process_transcript_entry_not_a_list
                {[ lit "transcripts" := PyStr (lit "Hello") ]}
                (PyStr (lit "Hello"))) as [_ Hother].
    + reflexivity.
    + discriminate.
    + apply Hother; discriminate.
  - destruct (process_transcript_entry_not_a_list
                {[ lit "transcripts" := PyNone ]} PyNone) as [_ Hother].
    + reflexivity.
    + discriminate.
    + apply Hother; discriminate.
Defined.

Lemma join_segments_app pre texts rest acc :
  Forall2 segment_with_text pre texts →
  join_segments (pre ++ rest) acc = join_segments rest (acc ++ spaced texts).
Proof.
  intros H. revert acc.
  induction H as [|seg t pre texts (d & -> & Ht) _ IH]; intros acc.
  - cbn. by rewrite app_nil_r.
  - cbn [app join_segments getitem]. rewrite Ht. cbn. rewrite IH.
    unfold spaced. cbn. by rewrite <- !app_assoc.
Qed.

(** X6: the loop stops at the first segment that has no string under ["text"]:
    [KeyError] when that segment is an object without the key, [TypeError]
    otherwise; the texts before it are lost and the segments after it are
    not looked at. *)
Theorem process_transcript_first_bad_segment
    (d : gmap (list N) pyval) (pre post : list pyval) (bad : pyval)
    (texts : list (list N)) :
  d !! lit "transcripts" = Some (PyList (pre ++ bad :: post)) →
  Forall2 segment_with_text pre texts →
  (∀ t, ¬ segment_with_text bad t) →
  ∃ e, process_transcript (PyDict d) = Raise e
       ∧ (lacks_text bad → e = Exc KeyError (lit "'text'"))
       ∧ (¬ lacks_text bad → exc_cls e = TypeError).
Proof.
  intros Hk Hpre Hbad.
  rewrite (process_transcript_list _ _ Hk), (join_segments_app _ _ _ _ Hpre).
  cbn [join_segments].
  destruct bad as [| | | |str|l|db]; cbn;
    try (eexists; split; [reflexivity|];
         split; [by intros (? & ? & _)|reflexivity]).
  destruct (db !! lit "text") as [v|] eqn:Hv; cbn.
  - assert (Hnl : ¬ lacks_text (PyDict db)).
    { intros (? & [= <-] & ?). congruence. }
    destruct v; cbn;
      try (eexists; split; [reflexivity|]; split; [done|reflexivity]).
    destruct (Hbad s). by exists db.
  - eexists. split; [reflexivity|]. split; [reflexivity|].
    intros Hnl. destruct Hnl. by exists db.
Qed.

Lemma process_transcript_first_bad_segment_witness :
  ∃ e, process_transcript
         (PyDict {[ lit "transcripts" :=
                      PyList [ PyDict {[ lit "text" := PyStr (lit "Hello") ]};
                               PyDict {[ lit "text" := PyInt 7 ]};
                               PyDict ∅ ] ]}) = Raise e
       ∧ exc_cls e = TypeError.
Proof.
  destruct (process_transcript_first_bad_segment
              {[ lit "transcripts" :=
                   PyList [ PyDict {[ lit "text" := PyStr (lit "Hello") ]};
                            PyDict {[ lit "text" := PyInt 7 ]};
                            PyDict ∅ ] ]}
              [PyDict {[ lit "text" := PyStr (lit "Hello") ]}]
              [PyDict ∅]
              (PyDict {[ lit "text" := PyInt 7 ]})
              [lit "Hello"])
    as (e & He & _ & Hcls).
  - reflexivity.
  - constructor; [|constructor]. eexists. split; reflexivity.
  - intros t (dd & [= <-] & Ht). discriminate Ht.
  - exists e. split; [exact He|]. apply Hcls.
    intros (dd & [= <-] & Ht). discriminate Ht.
Defined.

(** * Beyond the claims: get_video_transcript *)

Lemma get_calls_app tr tr' : get_calls (tr ++ tr') = get_calls tr ++ get_calls tr'.
Proof. apply omap_app. Qed.

(** X7: a response whose status is not an error status and whose body decodes
    is returned as decoded; the request is the only event, nothing is
    printed. *)
Theorem get_video_transcript_success w video_id api_key st r v :
  http_get w SEARCH_URL (transcript_query video_id api_key) = Ok r →
  ¬ (400 ≤ status_code r < 600) →
  json r = Ok v →
  get_video_transcript w video_id api_key st
  = (Ok v, emits st [EvGet SEARCH_URL (transcript_query video_id api_key)]).
Proof.
  intros Hget Hstatus Hjson.
  by rewrite get_video_transcript_cases, Hget, raise_for_status_pass, Hjson.
Qed.

Lemma get_video_transcript_success_witness :
  get_video_transcript w_all_fine (lit "dQw4w9WgXcQ") (lit "search-key") st0
  = (Ok hello_world,
     emits st0 [EvGet SEARCH_URL
                  (transcript_query (lit "dQw4w9WgXcQ") (lit "search-key"))]).
Proof.
  eapply get_video_transcript_success.
  - reflexivity.
  - cbn. lia.
  - reflexivity.
Defined.

(** X8: what a step of the [try] block raises is caught when it is a
    [RequestException], whichever step raised it (the request, the status
    check or the decoding of the body): the error is printed and [None]
    returned.  Anything else passes through, with nothing printed. *)
Theorem get_video_transcript_handler w video_id api_key st e :
  fetch_raises w video_id api_key e →
  get_video_transcript w video_id api_key st
  = if isinstance e RequestException
    then (Ok PyNone,
          emits st [ EvGet SEARCH_URL (transcript_query video_id api_key);
                     EvPrint (lit "Error fetching transcript: " ++ exc_msg e) ])
    else (Raise e,
          emits st [EvGet SEARCH_URL (transcript_query video_id api_key)]).
Proof.
  intros [Hget | (r & Hget & [Hstatus | [Hstatus Hjson]])];
    rewrite get_video_transcript_cases, Hget; cbn zeta; [done| |].
  - by rewrite Hstatus.
  - by rewrite Hstatus, Hjson.
Qed.

Lemma get_video_transcript_handler_witness :
  get_video_transcript w_bad_body (lit "dQw4w9WgXcQ") (lit "search-key") st0
  = (Ok PyNone,
     emits st0 [ EvGet SEARCH_URL
                   (transcript_query (lit "dQw4w9WgXcQ") (lit "search-key"));
                 EvPrint (lit "Error fetching transcript: Expecting value: line 1 column 1 (char 0)") ])
  ∧ get_video_transcript w_interrupted (lit "dQw4w9WgXcQ") (lit "search-key") st0
    = (Raise (Exc KeyboardInterrupt []),
       emits st0 [EvGet SEARCH_URL
                    (transcript_query (lit "dQw4w9WgXcQ") (lit "search-key"))]).
Proof.
  split.
  - apply (get_video_transcript_handler w_bad_body (lit "dQw4w9WgXcQ")
             (lit "search-key") st0
             (Exc JSONDecodeError (lit "Expecting value: line 1 column 1 (char 0)"))).
    right. eexists. split; [reflexivity|]. right. split; reflexivity.
  - apply (get_video_transcript_handler w_interrupted (lit "dQw4w9WgXcQ")
             (lit "search-key") st0 (Exc KeyboardInterrupt [])).
    left. reflexivity.
Defined.

(** X9: [get_video_transcript] never raises a [RequestException]: what it
    raises was raised by one of its three steps, is of another class, and
    was not printed. *)
Theorem get_video_transcript_raises_only_foreign w video_id api_key st e st' :
  get_video_transcript w video_id api_key st = (Raise e, st') →
  isinstance e RequestException = false
  ∧ fetch_raises w video_id api_key e
  ∧ st' = emits st [EvGet SEARCH_URL (transcript_query video_id api_key)].
Proof.
  rewrite get_video_transcript_cases. cbn zeta. unfold fetch_raises.
  destruct (http_get _ _ _) as [r|e0] eqn:Hget.
  - destruct (raise_for_status r) as [[]|e1] eqn:Hstatus.
    + destruct (json r) as [v|e2] eqn:Hjson; [discriminate|].
      destruct (isinstance e2 _) eqn:Hcls; intros [= <- <-].
      split; [done|]. split; [|done]. right. exists r. eauto.
    + destruct (isinstance e1 _) eqn:Hcls; intros [= <- <-].
      split; [done|]. split; [|done]. right. exists r. eauto.
  - destruct (isinstance e0 _) eqn:Hcls; intros [= <- <-]. auto.
Qed.

Lemma get_video_transcript_raises_only_foreign_witness :
  isinstance (Exc KeyboardInterrupt []) RequestException = false
  ∧ fetch_raises w_interrupted (lit "dQw4w9WgXcQ") (lit "search-key")
      (Exc KeyboardInterrupt []).
Proof.
  destruct (get_video_transcript_raises_only_foreign w_interrupted
              (lit "dQw4w9WgXcQ") (lit "search-key") st0
              (Exc KeyboardInterrupt [])
              (emits st0 [EvGet SEARCH_URL
                            (transcript_query (lit "dQw4w9WgXcQ") (lit "search-key"))])
              eq_refl)
    as (Hcls & Hraise & _).
  split; [exact Hcls|exact Hraise].
Defined.

(** X10: every call sends exactly one request, to the fixed endpoint, with the
    three parameters [engine], [video_id] and [api_key] in this order; it
    sends no chat request and reads nothing from standard input.  There is
    no retry, whatever the outcome. *)
Theorem get_video_transcript_one_request w video_id api_key st :
  get_calls (trace (get_video_transcript w video_id api_key st).2)
  = get_calls (trace st)
    ++ [ (lit "https://www.searchapi.io/api/v1/search",
          [ (lit "engine", lit "youtube_transcripts");
            (lit "video_id", video_id);
            (lit "api_key", api_key) ]) ]
  ∧ chat_calls (trace (get_video_transcript w video_id api_key st).2)
    = chat_calls (trace st)
  ∧ stdin (get_video_transcript w video_id api_key st).2 = stdin st.
Proof.
  rewrite get_video_transcript_cases. cbn zeta.
  repeat case_match; cbn [snd emits trace stdin];
    rewrite get_calls_app, chat_calls_app; cbn; by rewrite app_nil_r.
Qed.

(** * Beyond the claims: summarize_with_gpt4 *)

(** X11: when the client is constructed and the service answers with at
    least one choice, the content of the first choice is returned as it is
    (a string or [None]); the other choices are ignored and nothing is
    printed. *)
Theorem summarize_with_gpt4_first_choice
    w transcript_text openai_api_key st completion first others :
  new_client w openai_api_key = Ok tt →
  chat_create w openai_api_key (summary_request transcript_text) = Ok completion →
  choices completion = first :: others →
  summarize_with_gpt4 w transcript_text openai_api_key st
  = (Ok first,
     emits st [EvChat openai_api_key (summary_request transcript_text)]).
Proof.
  intros Hclient Hcall Hchoices.
  by rewrite summarize_with_gpt4_cases, Hclient, Hcall, Hchoices.
Qed.

Lemma summarize_with_gpt4_first_choice_witness :
  summarize_with_gpt4 w_no_content (lit "Hello world") (lit "openai-key") st0
  = (Ok None,
     emits st0 [EvChat (lit "openai-key") (summary_request (lit "Hello world"))]).
Proof.
  eapply summarize_with_gpt4_first_choice.
  - reflexivity.
  - reflexivity.
  - reflexivity.
Defined.

(** X12: [summarize_with_gpt4] raises in exactly two cases.  The constructor
    of line 43, which is outside the [try], raises: the exception, whatever
    its class, goes to the caller, with no request sent and nothing
    printed.  Or the client is constructed and the call raises outside the
    class [Exception] (an interrupt, an exit): that passes through after
    the request, unprinted.  Nothing of class [Exception] raised inside the
    [try] reaches the caller. *)
Theorem summarize_with_gpt4_raises_iff w transcript_text openai_api_key st e st' :
  summarize_with_gpt4 w transcript_text openai_api_key st = (Raise e, st')
  ↔ (new_client w openai_api_key = Raise e ∧ st' = st)
    ∨ (new_client w openai_api_key = Ok tt
       ∧ chat_create w openai_api_key (summary_request transcript_text) = Raise e
       ∧ isinstance e Exception = false
       ∧ st' = emits st [EvChat openai_api_key (summary_request transcript_text)]).
Proof.
  rewrite summarize_with_gpt4_cases. cbn zeta.
  destruct (new_client _ _) as [[]|e1].
  2:{ split.
      - intros [= <- <-]. by left.
      - intros [([= <-] & ->) | ([=] & _)]. reflexivity. }
  destruct (chat_create _ _ _) as [[[|first others]]|e0]; cbn [choices].
  - assert (isinstance (Exc IndexError (lit "list index out of range")) Exception
            = true) as -> by reflexivity.
    split; [discriminate|]. by intros [([=] & _) | (_ & [=] & _)].
  - split; [discriminate|]. by intros [([=] & _) | (_ & [=] & _)].
  - destruct (isinstance e0 Exception) eqn:Hcls.
    + split; [discriminate|].
      intros [([=] & _) | (_ & [= <-] & ? & _)]. congruence.
    + split; [intros [= <- <-]; by right|].
      by intros [([=] & _) | (_ & [= <-] & _ & ->)].
Qed.

Lemma summarize_with_gpt4_raises_iff_witness :
  summarize_with_gpt4 w_chat_interrupted (lit "Hello world") (lit "openai-key") st0
  = (Raise (Exc KeyboardInterrupt []),
     emits st0 [EvChat (lit "openai-key") (summary_request (lit "Hello world"))])
  ∧ summarize_with_gpt4 w_all_fine (lit "Hello world") [] st0
    = (Raise (Exc OpenAIError
                (lit "The api_key client option must be set either by passing api_key to the client or by setting the OPENAI_API_KEY environment variable")),
       st0).
Proof.
  split.
  - apply (proj2 (summarize_with_gpt4_raises_iff w_chat_interrupted
                    (lit "Hello world") (lit "openai-key") st0
                    (Exc KeyboardInterrupt [])
                    (emits st0 [EvChat (lit "openai-key")
                                  (summary_request (lit "Hello world"))]))).
    right. split; [reflexivity|]. split; [reflexivity|]. split; reflexivity.
  - apply (proj2 (summarize_with_gpt4_raises_iff w_all_fine
                    (lit "Hello world") [] st0
                    (Exc OpenAIError
                       (lit "The api_key client option must be set either by passing api_key to the client or by setting the OPENAI_API_KEY environment variable"))
                    st0)).
    left. split; reflexivity.
Defined.

(** * Beyond the claims: the prompts and the orchestrator *)

Lemma or_input_run v prompt st :
  or_input v prompt st
  = if given v then (Ok (default [] v), st)
    else match stdin st with
         | line :: rest =>
             (Ok line, {| stdin := rest; trace := trace st ++ [EvPrompt prompt] |})
         | [] => (Raise (Exc EOFError (lit "EOF when reading a line")),
                  emits st [EvPrompt prompt])
         end.
Proof. by destruct v as [[|c s]|]. Qed.

(** X13: the prompts are written for exactly the inputs that are not given, in
    the order video id, search key, chat key, and each reads one line, used
    as it is.  With enough lines on standard input the three inputs are
    resolved; with fewer, the prompt that finds the input exhausted raises
    [EOFError]. *)
Theorem resolve_inputs_prompts (w : world) (st : state) :
  (length (missing_inputs w) ≤ length (stdin st) →
   ∃ inputs st',
     resolve_inputs w st = (Ok inputs, st')
     ∧ trace st'
       = trace st ++ List.map (fun i => EvPrompt (prompt_of i)) (missing_inputs w)
     ∧ stdin st
       = List.map (fun i => resolved i inputs) (missing_inputs w) ++ stdin st')%nat
  ∧ (length (stdin st) < length (missing_inputs w) →
     ∃ st',
       resolve_inputs w st
       = (Raise (Exc EOFError (lit "EOF when reading a line")), st')
       ∧ stdin st' = []
       ∧ trace st'
         = trace st
           ++ List.map (fun i => EvPrompt (prompt_of i))
                (take (S (length (stdin st))) (missing_inputs w)))%nat.
Proof.
  unfold resolve_inputs, missing_inputs. cbn zeta.
  cbn [List.filter cli_value env_value].
  unfold mbind, IO_bind, mret, IO_ret.
  rewrite (or_input_run _ _ st), given_py_or.
  destruct st as [lines tr]. cbn [stdin trace].
  destruct (given (ns_video_id (args w)) || _) eqn:H1;
    destruct (given (ns_searchapi_key (args w)) || _) eqn:H2;
    destruct (given (ns_openai_key (args w)) || _) eqn:H3;
    cbn [negb];
    destruct lines as [|l1 [|l2 [|l3 rest]]];
    cbn [stdin trace emits];
    repeat (rewrite or_input_run, given_py_or, ?H2, ?H3; cbn [stdin trace emits]);
    (split; intros Hlen; cbn in Hlen; try lia;
     repeat eexists; cbn; rewrite <- ?app_assoc, ?app_nil_r; reflexivity).
Qed.

Lemma printed_app tr tr' : printed (tr ++ tr') = printed tr ++ printed tr'.
Proof. apply omap_app. Qed.

(** A prompt sends nothing and prints no line; if it raises, it is the
    [EOFError] of [input]. *)
Lemma or_input_quiet v prompt st r st' :
  or_input v prompt st = (r, st') →
  get_calls (trace st') = get_calls (trace st)
  ∧ chat_calls (trace st') = chat_calls (trace st)
  ∧ printed (trace st') = printed (trace st)
  ∧ (∀ e, r = Raise e → e = Exc EOFError (lit "EOF when reading a line")).
Proof.
  rewrite or_input_run.
  destruct (given v); [intros [= <- <-]; by repeat split|].
  destruct (stdin st); intros [= <- <-]; cbn;
    rewrite get_calls_app, chat_calls_app, printed_app; cbn;
    rewrite !app_nil_r; repeat split; try done.
  by intros e [= <-].
Qed.

Lemma resolve_inputs_quiet w st r st' :
  resolve_inputs w st = (r, st') →
  get_calls (trace st') = get_calls (trace st)
  ∧ chat_calls (trace st') = chat_calls (trace st)
  ∧ printed (trace st') = printed (trace st)
  ∧ (∀ e, r = Raise e → e = Exc EOFError (lit "EOF when reading a line")).
Proof.
  unfold resolve_inputs. unfold mbind, IO_bind, mret, IO_ret. cbn zeta.
  destruct (or_input _ _ st) as [[a|e1] st1] eqn:H1;
    apply or_input_quiet in H1 as (Hg1 & Hc1 & Hp1 & He1).
  2:{ intros [= <- <-]. repeat split; try done. intros e [= <-]. by apply He1. }
  destruct (or_input _ _ st1) as [[b|e2] st2] eqn:H2;
    apply or_input_quiet in H2 as (Hg2 & Hc2 & Hp2 & He2).
  2:{ intros [= <- <-]. rewrite Hg2, Hc2, Hp2. repeat split; try done.
      intros e [= <-]. by apply He2. }
  destruct (or_input _ _ st2) as [[c|e3] st3] eqn:H3;
    apply or_input_quiet in H3 as (Hg3 & Hc3 & Hp3 & He3);
    intros [= <- <-]; rewrite Hg3, Hc3, Hp3, Hg2, Hc2, Hp2;
    repeat split; try done.
  intros e [= <-]. by apply He3.
Qed.

(** X14: when an input cannot be resolved, it is because a prompt found standard
    input exhausted: [main] ends with that [EOFError], having sent no
    request, neither to the transcript service nor to the chat service, and
    having printed no line. *)
Theorem main_unresolved_inputs w st e st' :
  resolve_inputs w st = (Raise e, st') →
  main w st = (Raise e, st')
  ∧ e = Exc EOFError (lit "EOF when reading a line")
  ∧ get_calls (trace st') = get_calls (trace st)
  ∧ chat_calls (trace st') = chat_calls (trace st)
  ∧ printed (trace st') = printed (trace st).
Proof.
  intros Hres. split.
  - unfold main, mbind, IO_bind. by rewrite Hres.
  - apply resolve_inputs_quiet in Hres as (Hg & Hc & Hp & He).
    repeat split; try done. by apply He.
Qed.

Lemma main_unresolved_inputs_witness :
  main w_nothing_given {| stdin := [lit "dQw4w9WgXcQ"]; trace := [] |}
  = (Raise (Exc EOFError (lit "EOF when reading a line")),
     {| stdin := [];
        trace := [ EvPrompt (lit "Enter YouTube video ID: ");
                   EvPrompt (lit "Enter SearchAPI.io API key: ") ] |}).
Proof.
  apply (main_unresolved_inputs w_nothing_given
           {| stdin := [lit "dQw4w9WgXcQ"]; trace := [] |}).
  reflexivity.
Defined.

Lemma resolve_inputs_prompts_witness :
  ∃ inputs st',
    resolve_inputs w_nothing_given
      {| stdin := [lit "dQw4w9WgXcQ"; []; lit "openai-key"; lit "unread"];
         trace := [] |}
    = (Ok inputs, st')
    ∧ trace st' = [ EvPrompt (lit "Enter YouTube video ID: ");
                    EvPrompt (lit "Enter SearchAPI.io API key: ");
                    EvPrompt (lit "Enter OpenAI API key: ") ]
    ∧ [lit "dQw4w9WgXcQ"; []; lit "openai-key"; lit "unread"]
      = [resolved VideoId inputs; resolved SearchapiKey inputs;
         resolved OpenaiKey inputs] ++ stdin st'.
Proof.
  apply (proj1 (resolve_inputs_prompts w_nothing_given
                  {| stdin := [lit "dQw4w9WgXcQ"; []; lit "openai-key"; lit "unread"];
                     trace := [] |})).
  vm_compute. lia.
Defined.

(** X15: the whole run when everything works (the client is constructed
    among the rest): the progress lines, the request, the chat request for
    the assembled transcript, and the content of the first choice between
    the two delimiter lines.  A first choice without content is printed as
    the line "None". *)
Theorem main_success
    (w : world) (st st1 : state) (video_id searchapi_key openai_key : list N)
    (r : response) (transcript_data : pyval) (full_transcript : list N)
    (completion : chat_completion) (summary : option (list N))
    (others : list (option (list N))) :
  resolve_inputs w st = (Ok (video_id, searchapi_key, openai_key), st1) →
  http_get w SEARCH_URL (transcript_query video_id searchapi_key) = Ok r →
  ¬ (400 ≤ status_code r < 600) →
  json r = Ok transcript_data →
  truthy transcript_data = true →
  process_transcript transcript_data = Ok full_transcript →
  new_client w openai_key = Ok tt →
  chat_create w openai_key (summary_request full_transcript) = Ok completion →
  choices completion = summary :: others →
  main w st
  = (Ok tt,
     emits st1
       [ EvPrint (lit "Fetching transcript for video ID: " ++ video_id ++ lit "...");
         EvGet SEARCH_URL (transcript_query video_id searchapi_key);
         EvPrint (lit "Transcript fetched successfully!");
         EvPrint (lit "Generating summary...");
         EvChat openai_key (summary_request full_transcript);
         EvPrint ([LF] ++ lit "--- VIDEO SUMMARY ---" ++ [LF]);
         EvPrint (match summary with
                  | Some text => text
                  | None => lit "None"
                  end);
         EvPrint ([LF] ++ lit "--------------------" ++ [LF]) ]).
Proof.
  intros Hres Hget Hstatus Hjson Hdata Htext Hclient Hchat Hchoices.
  rewrite (main_resolved _ _ _ _ _ _ Hres), fetch_and_summarize_cases.
  rewrite get_video_transcript_cases, Hget, raise_for_status_pass, Hjson by done.
  cbn zeta. rewrite Hdata, Htext.
  rewrite summarize_with_gpt4_cases, Hclient, Hchat, Hchoices.
  by rewrite !emits_emits.
Qed.

Lemma main_success_witness :
  main w_all_fine st0
  = (Ok tt,
     emits st0
       [ EvPrint (lit "Fetching transcript for video ID: dQw4w9WgXcQ...");
         EvGet SEARCH_URL (transcript_query (lit "dQw4w9WgXcQ") (lit "search-key"));
         EvPrint (lit "Transcript fetched successfully!");
         EvPrint (lit "Generating summary...");
         EvChat (lit "openai-key") (summary_request (lit "Hello world"));
         EvPrint ([LF] ++ lit "--- VIDEO SUMMARY ---" ++ [LF]);
         EvPrint (lit "- a greeting");
         EvPrint ([LF] ++ lit "--------------------" ++ [LF]) ])
  ∧ main w_no_content st0
    = (Ok tt,
       emits st0
         [ EvPrint (lit "Fetching transcript for video ID: dQw4w9WgXcQ...");
           EvGet SEARCH_URL (transcript_query (lit "dQw4w9WgXcQ") (lit "search-key"));
           EvPrint (lit "Transcript fetched successfully!");
           EvPrint (lit "Generating summary...");
           EvChat (lit "openai-key") (summary_request (lit "Hello world"));
           EvPrint ([LF] ++ lit "--- VIDEO SUMMARY ---" ++ [LF]);
           EvPrint (lit "None");
           EvPrint ([LF] ++ lit "--------------------" ++ [LF]) ]).
Proof.
  split.
  - apply (main_success w_all_fine st0 st0
             (lit "dQw4w9WgXcQ") (lit "search-key") (lit "openai-key")
             {| status_code := 200; reason := lit "OK"; url := sample_url;
                json := Ok hello_world |}
             hello_world (lit "Hello world")
             {| choices := [Some (lit "- a greeting")] |}
             (Some (lit "- a greeting")) []);
      try reflexivity.
    cbn. lia.
  - apply (main_success w_no_content st0 st0
             (lit "dQw4w9WgXcQ") (lit "search-key") (lit "openai-key")
             {| status_code := 200; reason := lit "OK"; url := sample_url;
                json := Ok hello_world |}
             hello_world (lit "Hello world")
             {| choices := [None; Some (lit "- second choice")] |}
             None [Some (lit "- second choice")]);
      try reflexivity.
    cbn. lia.
Defined.

(** X16: an exception of [process_transcript] is not handled by [main]: the run
    ends with it right after the line "Transcript fetched successfully!",
    and no chat request is sent. *)
Theorem main_assembly_error
    (w : world) (st st1 st2 : state) (video_id searchapi_key openai_key : list N)
    (transcript_data : pyval) (e : exc) :
  resolve_inputs w st = (Ok (video_id, searchapi_key, openai_key), st1) →
  get_video_transcript w video_id searchapi_key
    (emits st1 [fetching_line video_id]) = (Ok transcript_data, st2) →
  truthy transcript_data = true →
  process_transcript transcript_data = Raise e →
  main w st = (Raise e, emits st2 [EvPrint (lit "Transcript fetched successfully!")])
  ∧ chat_calls (trace (main w st).2) = chat_calls (trace st).
Proof.
  intros Hres Hget Hdata Hraise.
  rewrite (main_resolved _ _ _ _ _ _ Hres), fetch_and_summarize_cases, Hget,
    Hdata, Hraise. cbn zeta. split; [reflexivity|].
  apply resolve_inputs_chat_calls in Hres.
  apply get_video_transcript_events in Hget as (evs & -> & Hevs).
  cbn [snd]. rewrite !chat_calls_emits, Hevs, Hres. cbn. by rewrite !app_nil_r.
Qed.

Lemma main_assembly_error_witness :
  main w_number_text st0
  = (Raise (Exc TypeError (lit "unsupported operand type(s) for +: 'int' and 'str'")),
     emits st0
       [ fetching_line (lit "dQw4w9WgXcQ");
         EvGet SEARCH_URL (transcript_query (lit "dQw4w9WgXcQ") (lit "search-key"));
         EvPrint (lit "Transcript fetched successfully!") ])
  ∧ chat_calls (trace (main w_number_text st0).2) = [].
Proof.
  apply (main_assembly_error w_number_text st0 st0
           (emits st0
              [ fetching_line (lit "dQw4w9WgXcQ");
                EvGet SEARCH_URL
                  (transcript_query (lit "dQw4w9WgXcQ") (lit "search-key")) ])
           (lit "dQw4w9WgXcQ") (lit "search-key") (lit "openai-key")
           (PyDict {[ lit "transcripts" :=
                        PyList [PyDict {[ lit "text" := PyInt 7 ]}] ]})
           (Exc TypeError (lit "unsupported operand type(s) for +: 'int' and 'str'")));
    reflexivity.
Defined.

(** The events of the two calls: the request first, then what follows it,
    which holds no other request of either kind. *)
Lemma get_video_transcript_shape w video_id api_key st r st' :
  get_video_transcript w video_id api_key st = (r, st') →
  ∃ evs, st' = emits st (EvGet SEARCH_URL (transcript_query video_id api_key) :: evs)
         ∧ get_calls evs = [] ∧ chat_calls evs = [].
Proof.
  rewrite get_video_transcript_cases. cbn zeta.
  repeat case_match; intros [= <- <-]; eexists; (split; [reflexivity|]);
    split; reflexivity.
Qed.

Lemma summarize_with_gpt4_shape w transcript_text openai_api_key st r st' :
  summarize_with_gpt4 w transcript_text openai_api_key st = (r, st') →
  ∃ evs, st' = emits st evs
         ∧ get_calls evs = []
         ∧ (chat_calls evs = []
            ∨ chat_calls evs = [(openai_api_key, summary_request transcript_text)]).
Proof.
  rewrite summarize_with_gpt4_cases. cbn zeta.
  destruct (new_client _ _) as [[]|e].
  2:{ intros [= <- <-]. exists []. by rewrite emits_nil; auto. }
  repeat case_match; intros [= <- <-]; eexists;
    (split; [reflexivity|]); (split; [reflexivity|right; reflexivity]).
Qed.

Lemma get_calls_cons ev tr :
  get_calls (ev :: tr)
  = match ev with EvGet u q => [(u, q)] | _ => [] end ++ get_calls tr.
Proof. by destruct ev. Qed.

Lemma chat_calls_cons ev tr :
  chat_calls (ev :: tr)
  = match ev with EvChat k r => [(k, r)] | _ => [] end ++ chat_calls tr.
Proof. by destruct ev. Qed.

(** X17: once the inputs are resolved, every run of [main] sends exactly one
    request to the transcript service, with the resolved video id and search
    key, right after the first progress line; it sends at most one chat
    request, with the resolved chat key, and only after the transcript
    request; and it reads nothing more from standard input. *)
Theorem main_outbound_calls
    (w : world) (st st1 : state) (video_id searchapi_key openai_key : list N) :
  resolve_inputs w st = (Ok (video_id, searchapi_key, openai_key), st1) →
  ∃ rest,
    trace (main w st).2
    = trace st1
      ++ fetching_line video_id
         :: EvGet SEARCH_URL (transcript_query video_id searchapi_key) :: rest
    ∧ get_calls rest = []
    ∧ (chat_calls rest = []
       ∨ ∃ full_transcript,
           chat_calls rest = [(openai_key, summary_request full_transcript)])
    ∧ stdin (main w st).2 = stdin st1.
Proof.
  intros Hres.
  rewrite (main_resolved _ _ _ _ _ _ Hres), fetch_and_summarize_cases.
  destruct (get_video_transcript _ _ _ _) as [[v|e] st2] eqn:Hget;
    apply get_video_transcript_shape in Hget as (evs & -> & Hg & Hc);
    [destruct (truthy v); cbn zeta;
     [destruct (process_transcript v) as [t|e];
      [destruct (summarize_with_gpt4 _ _ _ _) as [[summary|e] st3] eqn:Hsum;
       apply summarize_with_gpt4_shape in Hsum as (evs' & -> & Hg' & Hc')|]|]|];
    rewrite ?emits_emits; cbn [snd trace stdin emits];
    (eexists; split; [reflexivity|]);
    rewrite ?get_calls_app, ?chat_calls_app, ?get_calls_cons, ?chat_calls_cons,
      ?get_calls_app, ?chat_calls_app, ?Hg, ?Hc, ?Hg';
    (split; [reflexivity|]); (split; [|reflexivity]);
    try (destruct Hc' as [-> | ->]);
    first [by left | right; by eexists].
Qed.

Lemma main_outbound_calls_witness :
  ∃ rest,
    trace (main w_chat_down st0).2
    = [ fetching_line (lit "dQw4w9WgXcQ");
        EvGet SEARCH_URL (transcript_query (lit "dQw4w9WgXcQ") (lit "search-key")) ]
      ++ rest
    ∧ get_calls rest = [].
Proof.
  destruct (main_outbound_calls w_chat_down st0 st0
              (lit "dQw4w9WgXcQ") (lit "search-key") (lit "openai-key") eq_refl)
    as (rest & Htrace & Hget & _).
  exists rest. split; [exact Htrace|exact Hget].
Defined.

(** X18: when the transcript is fetched and assembled but the constructor of
    the client raises (line 43 is outside the [try] of the summarizer and
    [main] has no handler), [main] ends with that exception right after
    "Generating summary...": no chat request is sent and no summary block is
    printed. *)
Theorem main_client_error
    (w : world) (st st1 st2 : state) (video_id searchapi_key openai_key : list N)
    (transcript_data : pyval) (full_transcript : list N) (e : exc) :
  resolve_inputs w st = (Ok (video_id, searchapi_key, openai_key), st1) →
  get_video_transcript w video_id searchapi_key
    (emits st1 [fetching_line video_id]) = (Ok transcript_data, st2) →
  truthy transcript_data = true →
  process_transcript transcript_data = Ok full_transcript →
  new_client w openai_key = Raise e →
  main w st
  = (Raise e,
     emits st2 [ EvPrint (lit "Transcript fetched successfully!");
                 EvPrint (lit "Generating summary...") ])
  ∧ chat_calls (trace (main w st).2) = chat_calls (trace st).
Proof.
  intros Hres Hget Hdata Htext Hclient.
  destruct (main_summarizes _ _ _ _ _ _ _ _ _ Hres Hget Hdata Htext) as [-> _].
  rewrite (summarize_with_gpt4_no_client _ _ _ _ _ Hclient).
  split; [reflexivity|].
  apply resolve_inputs_chat_calls in Hres.
  apply get_video_transcript_events in Hget as (evs & -> & Hevs).
  cbn [snd]. rewrite !chat_calls_emits, Hevs, Hres. cbn. by rewrite !app_nil_r.
Qed.

Lemma main_client_error_witness :
  main w_nothing_given
    {| stdin := [lit "dQw4w9WgXcQ"; lit "search-key"; []]; trace := [] |}
  = (Raise (Exc OpenAIError
              (lit "The api_key client option must be set either by passing api_key to the client or by setting the OPENAI_API_KEY environment variable")),
     {| stdin := [];
        trace := [ EvPrompt (lit "Enter YouTube video ID: ");
                   EvPrompt (lit "Enter SearchAPI.io API key: ");
                   EvPrompt (lit "Enter OpenAI API key: ");
                   fetching_line (lit "dQw4w9WgXcQ");
                   EvGet SEARCH_URL
                     (transcript_query (lit "dQw4w9WgXcQ") (lit "search-key"));
                   EvPrint (lit "Transcript fetched successfully!");
                   EvPrint (lit "Generating summary...") ] |}).
Proof.
  apply (main_client_error w_nothing_given
           {| stdin := [lit "dQw4w9WgXcQ"; lit "search-key"; []]; trace := [] |}
           {| stdin := [];
              trace := [ EvPrompt (lit "Enter YouTube video ID: ");
                         EvPrompt (lit "Enter SearchAPI.io API key: ");
                         EvPrompt (lit "Enter OpenAI API key: ") ] |}
           {| stdin := [];
              trace := [ EvPrompt (lit "Enter YouTube video ID: ");
                         EvPrompt (lit "Enter SearchAPI.io API key: ");
                         EvPrompt (lit "Enter OpenAI API key: ");
                         fetching_line (lit "dQw4w9WgXcQ");
                         EvGet SEARCH_URL
                           (transcript_query (lit "dQw4w9WgXcQ") (lit "search-key")) ] |}
           (lit "dQw4w9WgXcQ") (lit "search-key") [] hello_world (lit "Hello world")
           (Exc OpenAIError
              (lit "The api_key client option must be set either by passing api_key to the client or by setting the OPENAI_API_KEY environment variable")));
    reflexivity.
Defined.
